(** * Meta-DAO front-end: the OpenBook TWAP hook and the proposal list

    A shallow embedding of [useOpenbookTwap] (the transaction builders
    [placeOrderTransactions], [crankMarketTransactions],
    [settleFundsTransactions], [closeOpenOrdersAccountTransactions] and
    [cancelOrderTransactions]) and of the [ProposalList] component.

    Conventions of the embedding:
    - a JavaScript [number] is an IEEE binary64 value ([PrimFloat.float]);
    - a [PublicKey] value is its 32 bytes; where the source compares
      [PublicKey] objects with [!==] (reference identity) the object is a
      [Ref], a heap address together with the value stored there;
    - a [BN] is an unbounded integer ([Z]);
    - an [async] function returns a [Promise]: [Resolved v] or [Rejected];
      [undefined] as a resolved value is [None];
    - the libraries the hook calls (web3.js, spl-token, bn.js, Anchor) and
      the modules of the repository it imports ([@/lib/constants],
      [@/lib/utils], [../lib/openbook], the sibling hooks) are the fields of
      the class [Externals] and of the handle records: every theorem holds
      for whatever they compute.  Awaited calls may reject.  Of the
      synchronous library calls, [Transaction.add] throws when it is given no
      instruction, and in [placeOrderTransactions], whose arguments come
      from numbers typed by the user, [new BN] throws from 2^53 on and the
      encoder of the awaited [.transaction()] throws on a number that does
      not fit its 64-bit field; the address derivations are total. *)

From Stdlib Require Import ZArith List String Bool Lia.
From Stdlib Require Import Strings.Byte.
From Stdlib Require Import PrimFloat FloatOps SpecFloat Uint63.
From Stdlib Require DecimalString.
Import ListNotations.

Set Implicit Arguments.

(** ** JavaScript numbers and truthiness *)

Module JS.

Definition number := float.

Definition number_of_Z (z : Z) : number :=
  if (z <? 0)%Z then PrimFloat.opp (PrimFloat.of_uint63 (Uint63.of_Z (- z)))
  else PrimFloat.of_uint63 (Uint63.of_Z z).

(** [array.length] as a number. *)
Definition number_of_nat (n : nat) : number := number_of_Z (Z.of_nat n).

(** [Math.floor]: the largest integral double not above [x]; NaN, the
    infinities and the zeros are returned unchanged. *)
Definition Math_floor (x : number) : number :=
  match Prim2SF x with
  | S754_finite s m e =>
      if (0 <=? e)%Z then x
      else
        let d := (2 ^ (- e))%Z in
        let q := (Z.pos m / d)%Z in
        if s then
          if (Z.pos m mod d =? 0)%Z then x else number_of_Z (- (q + 1))
        else number_of_Z q
  | _ => x
  end.

(** [ToBoolean] on a number: [0], [-0] and [NaN] are falsy. *)
Definition truthy (x : number) : bool :=
  negb (PrimFloat.is_zero x || PrimFloat.is_nan x).

(** [ToBoolean] on an optional number parameter ([undefined] is falsy). *)
Definition truthy_opt (x : option number) : bool :=
  match x with
  | Some v => truthy v
  | None => false
  end.

(** [x || 0] for an optional number. *)
Definition or_zero (x : option number) : number :=
  match x with
  | Some v => if truthy v then v else 0%float
  | None => 0%float
  end.

(** [ToBoolean] on an optional boolean parameter. *)
Definition flag (b : option bool) : bool :=
  match b with
  | Some v => v
  | None => false
  end.

(** [x === 0] on numbers. *)
Definition is_zero_strict (x : number) : bool := PrimFloat.eqb x 0%float.

(** A heap object: its address and its contents.  [!==] and [===] on objects
    compare addresses only. *)
Record Ref (A : Type) : Type := mkRef { addr : nat; deref : A }.

Definition same_object {A : Type} (a b : Ref A) : bool :=
  Nat.eqb (addr a) (addr b).

End JS.

Import JS.

(** ** Promises *)

Inductive Promise (A : Type) : Type :=
| Resolved (a : A)
| Rejected.

Arguments Resolved {A} a.
Arguments Rejected {A}.

Definition ret {A : Type} (a : A) : Promise A := Resolved a.

(** [await c] followed by the rest of the function body. *)
Definition bind {A B : Type} (c : Promise A) (k : A -> Promise B) : Promise B :=
  match c with
  | Resolved a => k a
  | Rejected => Rejected
  end.

(** [try { body } catch { handler }]. *)
Definition try_catch {A : Type} (body handler : Promise A) : Promise A :=
  match body with
  | Resolved a => Resolved a
  | Rejected => handler
  end.

Declare Scope promise_scope.
Delimit Scope promise_scope with promise.
Notation "x <- c ;; k" := (bind c (fun x => k))
  (at level 61, c at next level, right associativity) : promise_scope.
Notation "' pat <- c ;; k" := (bind c (fun x => match x with pat => k end))
  (at level 61, pat pattern, c at next level, right associativity) : promise_scope.
Open Scope promise_scope.

(** ** Keys, big numbers, instructions *)

Definition PublicKey := list byte.

(** [key.toBuffer()]. *)
Definition toBuffer (k : PublicKey) : list byte := k.

(** [Buffer.from(s)] for an ASCII string. *)
Definition Buffer_from (s : string) : list byte := list_byte_of_string s.

Definition BN := Z.

Definition BN_mul (a b : BN) : BN := (a * b)%Z.

Definition BN_toString (a : BN) : string :=
  DecimalString.NilZero.string_of_int (Z.to_int a).

Record AccountMeta : Type := {
  pubkey : Ref PublicKey;
  isSigner : bool;
  isWritable : bool
}.

(** An instruction of web3.js that the hook receives ready-made. *)
Record TransactionInstruction : Type := {
  ix_programId : PublicKey;
  ix_keys : list AccountMeta;
  ix_data : list byte
}.

(** ** On-chain accounts read by the hook *)

Record OpenOrdersIndexer : Type := { createdCounter : number }.

Record AnyEvent : Type := { eventType : number; padding : list byte }.
Record EventNode : Type := { event : AnyEvent }.
Record EventHeap : Type := { nodes : list EventNode }.

(** Decoded events: only the field the hook reads.  The coder builds a new
    object at every call, so [maker] and [owner] are references. *)
Record FillEvent : Type := { maker : Ref PublicKey }.
Record OutEvent : Type := { owner : Ref PublicKey }.

Record ConditionalVault : Type := {
  conditionalOnFinalizeTokenMint : PublicKey;
  conditionalOnRevertTokenMint : PublicKey
}.

Module Market.
Record account_t : Type := {
    baseMint : PublicKey;
    quoteMint : PublicKey;
    asks : PublicKey;
    bids : PublicKey;
    eventHeap : PublicKey;
    marketAuthority : PublicKey;
    marketBaseVault : PublicKey;
    marketQuoteVault : PublicKey
  }.
(** [MarketAccountWithKey]. *)
Record t : Type := { publicKey : PublicKey; account : account_t }.
End Market.

Module Proposal.
Record account_t : Type := {
    number : JS.number;
    proposer : PublicKey;
    descriptionUrl : string;
    baseVault : PublicKey;
    quoteVault : PublicKey
  }.
(** [ProposalAccountWithKey]. *)
Record t : Type := { publicKey : PublicKey; account : account_t }.
End Proposal.

(** ** Program handles *)

(** [openbook.program]: the Anchor program of the order book, with the two
    account fetchers and the two type decoders the hook uses.  A decoder
    field gives the key value read from the bytes ([maker] of a fill event,
    [owner] of an out event); the object holding it is allocated by
    [decodeFillEvent] and [decodeOutEvent] below. *)
Record OpenbookProgram : Type := {
  account_openOrdersIndexer_fetch : PublicKey -> Promise (option OpenOrdersIndexer);
  account_eventHeap_fetch : PublicKey -> Promise (option EventHeap);
  coder_decode_FillEvent : list byte -> PublicKey;
  coder_decode_OutEvent : list byte -> PublicKey
}.

Module Openbook.
(** The client returned by [useOpenbook()]. *)
Record t : Type := { program : OpenbookProgram; programId : PublicKey }.
End Openbook.

Record Provider : Type := {
  connection_getLatestBlockhash : Promise string;
  provider_wallet_publicKey : PublicKey
}.

(** [new Program<OpenbookTwap>(IDL, programId, provider)]. *)
Record TwapProgram : Type := {
  twap_programId : PublicKey;
  twap_provider : Provider
}.

(** ** What the hook imports *)

Class Externals : Type := {
  (* @solana/web3.js *)
  PublicKey_new : string -> PublicKey;
  PublicKey_toString : PublicKey -> string;
  findProgramAddressSync : list (list byte) -> PublicKey -> PublicKey * number;
  (* @solana/spl-token *)
  TOKEN_PROGRAM_ID : PublicKey;
  getAssociatedTokenAddressSync : PublicKey -> PublicKey -> PublicKey;
  (* bn.js: new BN(n) for a number n *)
  BN_new : number -> BN;
  (* @/lib/constants *)
  OPENBOOK_TWAP_PROGRAM_ID : PublicKey;
  QUOTE_LOTS : number;
  (* @/lib/utils *)
  shortKey : PublicKey -> string;
  (* ../lib/openbook *)
  findOpenOrders : BN -> PublicKey -> PublicKey;
  findOpenOrdersIndexer : PublicKey -> PublicKey;
  createOpenOrdersIndexerInstruction :
    OpenbookProgram -> PublicKey -> PublicKey -> Promise TransactionInstruction;
  createOpenOrdersInstruction :
    OpenbookProgram -> PublicKey -> BN -> string -> PublicKey -> PublicKey ->
    Promise (list TransactionInstruction * PublicKey)
}.

(** What the other hooks hand to [useOpenbookTwap]. *)
Record Hooks : Type := {
  wallet_publicKey : option PublicKey;                    (* useWallet().publicKey *)
  provider : option Provider;                             (* useProvider() *)
  getVaultMint : PublicKey -> Promise ConditionalVault;   (* useConditionalVault() *)
  openbook : option Openbook.t                            (* useOpenbook() *)
}.

(** ** The instruction schema of the two programs *)

Module Side.
Inductive t : Type := Bid | Ask.
End Side.

Module OrderType.
Inductive t : Type := Limit | ImmediateOrCancel | PostOnly | Market | PostOnlySlide.
End OrderType.

Module SelfTradeBehavior.
Inductive t : Type := DecrementTake | CancelProvide | AbortTransaction.
End SelfTradeBehavior.

Record PlaceOrderArgs : Type := {
  side : Side.t;
  priceLots : BN;
  maxBaseLots : BN;
  maxQuoteLotsIncludingFees : BN;
  clientOrderId : BN;
  orderType : OrderType.t;
  expiryTimestamp : BN;
  selfTradeBehavior : SelfTradeBehavior.t;
  limit : number
}.

Module PlaceOrder.
Record accounts : Type := {
    openOrdersAccount : PublicKey;
    asks : PublicKey;
    bids : PublicKey;
    eventHeap : PublicKey;
    market : PublicKey;
    marketVault : PublicKey;
    twapMarket : PublicKey;
    userTokenAccount : PublicKey;
    openbookProgram : PublicKey
  }.
End PlaceOrder.

Module CancelOrderByClientId.
Record accounts : Type := {
    openOrdersAccount : PublicKey;
    asks : PublicKey;
    bids : PublicKey;
    market : PublicKey;
    twapMarket : PublicKey;
    openbookProgram : PublicKey
  }.
End CancelOrderByClientId.

Module SettleFunds.
Record accounts : Type := {
    owner : PublicKey;
    penaltyPayer : PublicKey;
    openOrdersAccount : PublicKey;
    market : PublicKey;
    marketAuthority : PublicKey;
    marketBaseVault : PublicKey;
    marketQuoteVault : PublicKey;
    userBaseAccount : PublicKey;
    userQuoteAccount : PublicKey;
    referrerAccount : option PublicKey;
    tokenProgram : PublicKey;
    systemProgram : PublicKey
  }.
End SettleFunds.

Module CloseOpenOrdersAccount.
Record accounts : Type := {
    owner : PublicKey;
    openOrdersIndexer : PublicKey;
    openOrdersAccount : PublicKey;
    solDestination : PublicKey
  }.
End CloseOpenOrdersAccount.

Module ConsumeEvents.
Record accounts : Type := {
    consumeEventsAdmin : PublicKey;
    market : PublicKey;
    eventHeap : PublicKey
  }.
End ConsumeEvents.

(** [program.methods.<name>(args).accounts({...}).remainingAccounts(...)]. *)
Inductive MethodCall : Type :=
| placeOrder (args : PlaceOrderArgs) (accounts : PlaceOrder.accounts)
| cancelOrderByClientId (clientOrderId : BN) (accounts : CancelOrderByClientId.accounts)
| settleFunds (accounts : SettleFunds.accounts)
| closeOpenOrdersAccount (accounts : CloseOpenOrdersAccount.accounts)
| consumeEvents (limit : BN) (accounts : ConsumeEvents.accounts)
    (remainingAccounts : list AccountMeta).

(** The program object whose [methods] namespace a call is built on:
    [openbook.program] or [openbookTwap]. *)
Inductive ProgramHandle : Type := OnOpenbook | OnOpenbookTwap.

Inductive Instruction : Type :=
| Raw (ix : TransactionInstruction)
| Method (on : ProgramHandle) (call : MethodCall).

Record Transaction : Type := { instructions : list Instruction }.

(** [new VersionedTransaction(MessageV0.compile({...}))]. *)
Record VersionedTransaction : Type := {
  payerKey : PublicKey;
  v0_instructions : list Instruction;
  recentBlockhash : string;
  addressLookupTableAccounts : option (list PublicKey)
}.

(** [tx.add(...items)]: web3.js throws when no item is given. *)
Definition Transaction_add (tx : Transaction) (items : list Instruction)
  : Promise Transaction :=
  match items with
  | [] => Rejected
  | _ => Resolved {| instructions := instructions tx ++ items |}
  end.

(** [builder.preInstructions(pre).transaction()].  The call is given with its
    arguments as the instruction data carries them.  [placeOrderTransactions]
    computes its arguments from numbers typed by the user and passes them
    through the encoder first ([encodePlaceOrderArgs] below), where the
    awaited [.transaction()] can reject; the order id of
    [cancelOrderByClientId] is a [u64] read from the chain. *)
Definition methods_transaction (on : ProgramHandle) (call : MethodCall)
    (pre : list Instruction) : Transaction :=
  {| instructions := pre ++ [Method on call] |}.

(** [builder.instruction()]. *)
Definition methods_instruction (on : ProgramHandle) (call : MethodCall)
  : Instruction := Method on call.

(** ** bn.js and the Anchor encoder on 64-bit fields *)

(** The numbers [new BN] accepts: bn.js reads NaN as 0 ([number || 0]) and
    asserts that the magnitude is below 2^53. *)
Definition safe_for_BN (n : number) : bool :=
  PrimFloat.is_nan n || PrimFloat.ltb (PrimFloat.abs n) 9007199254740992%float.

(** The signed reading of eight bytes holding [v], for [0 <= v < 2^64]. *)
Definition as_i64 (v : Z) : Z :=
  if (v <? 2 ^ 63)%Z then v else (v - 2 ^ 64)%Z.

(** bn.js's [toTwos(64)] written on eight bytes, for a negative number of
    magnitude 2^64 or more: left to the library. *)
Class TwosComplement : Type := {
  toTwos64_wide : BN -> Promise BN
}.

(** The encoder of an [i64] field, [src.toTwos(64).toArrayLike(Buffer, 'le', 8)],
    as the value the program reads back.  [toArrayLike] throws when the
    number needs more than eight bytes; a number of 2^63 and more that fits
    them is read back negative. *)
Definition borsh_i64 {tc : TwosComplement} (v : BN) : Promise BN :=
  if (0 <=? v)%Z then
    if (v <? 2 ^ 64)%Z then Resolved (as_i64 v) else Rejected
  else if (- 2 ^ 64 <? v)%Z then Resolved (as_i64 (2 ^ 64 + v))
  else toTwos64_wide v.

(** The encoder of a [u64] field, [src.toArrayLike(Buffer, 'le', 8)]: the
    bytes of the magnitude. *)
Definition borsh_u64 (v : BN) : Promise BN :=
  if (Z.abs v <? 2 ^ 64)%Z then Resolved (Z.abs v) else Rejected.

(** ** useOpenbookTwap *)

Section UseOpenbookTwap.
Context {ext : Externals} {tc : TwosComplement}.

(** [new BN(n)] in the code paths fed by user input: it throws outside the
    range of [safe_for_BN]. *)
Definition new_BN (n : number) : Promise BN :=
  if safe_for_BN n then Resolved (BN_new n) else Rejected.

(** Line 31. *)
Definition SYSTEM_PROGRAM : PublicKey :=
  PublicKey_new "11111111111111111111111111111111".

(** Lines 39-44: the TWAP program handle exists exactly when the provider does. *)
Definition openbookTwap (h : Hooks) : option TwapProgram :=
  match provider h with
  | None => None
  | Some p => Some {| twap_programId := OPENBOOK_TWAP_PROGRAM_ID; twap_provider := p |}
  end.

(** Lines 123-126 and 333-336. *)
Definition twapMarketAddress (market : Market.t) : PublicKey :=
  fst (findProgramAddressSync
         [Buffer_from "twap_market"; toBuffer (Market.publicKey market)]
         OPENBOOK_TWAP_PROGRAM_ID).

(** Lines 63-79: the account index and the instructions put in [openTx]
    while it is computed.  The [new BN] of line 66 is inside the [try]. *)
Definition openOrdersIndex (ob : Openbook.t) (wallet_pk openOrdersIndexer : PublicKey)
    (indexOffset : option number) (openTx : Transaction)
  : Promise (BN * Transaction) :=
  accountIndex <- new_BN 1%float ;;
  try_catch
    (indexer <- account_openOrdersIndexer_fetch (Openbook.program ob) openOrdersIndexer ;;
     accountIndex <-
       new_BN (or_zero (option_map createdCounter indexer) + 1
               + or_zero indexOffset)%float ;;
     ret (accountIndex, openTx))
    (if negb (truthy_opt indexOffset) then
       ix <- createOpenOrdersIndexerInstruction
               (Openbook.program ob) openOrdersIndexer wallet_pk ;;
       openTx <- Transaction_add openTx [Raw ix] ;;
       ret (accountIndex, openTx)
     else
       accountIndex <- new_BN (1 + or_zero indexOffset)%float ;;
       ret (accountIndex, openTx)).

(** Lines 91-113: the [args] object. *)
Definition placeOrderArgs (amount price : number) (limitOrder ask : option bool)
    (accountIndex : BN) : Promise PlaceOrderArgs :=
  priceLots <- new_BN (Math_floor (price / QUOTE_LOTS)%float) ;;
  maxBaseLots <- new_BN (Math_floor amount) ;;
  let maxQuoteLotsIncludingFees := BN_mul priceLots maxBaseLots in
  '(priceLots, maxQuoteLotsIncludingFees) <-
    (if negb (flag limitOrder) then
       if flag ask then
         priceLots <- new_BN 1%float ;;
         maxQuoteLotsIncludingFees <- new_BN (Math_floor (10 / QUOTE_LOTS)%float) ;;
         ret (priceLots, maxQuoteLotsIncludingFees)
       else
         priceLots <- new_BN 1000000000000000%float ;;
         ret (priceLots, BN_mul priceLots maxBaseLots)
     else ret (priceLots, maxQuoteLotsIncludingFees)) ;;
  expiryTimestamp <- new_BN 0%float ;;
  ret {| side := if flag ask then Side.Ask else Side.Bid;
         priceLots := priceLots;
         maxBaseLots := maxBaseLots;
         maxQuoteLotsIncludingFees := maxQuoteLotsIncludingFees;
         clientOrderId := accountIndex;
         orderType := if flag limitOrder then OrderType.Limit else OrderType.Market;
         expiryTimestamp := expiryTimestamp;
         selfTradeBehavior := SelfTradeBehavior.AbortTransaction;
         limit := 255%float |}.

(** Line 131: what the awaited [.transaction()] writes for [args].  The
    three lot fields are [i64], [clientOrderId] and [expiryTimestamp] are
    [u64]; the enums and the [u8] limit 255 are written as they are. *)
Definition encodePlaceOrderArgs (args : PlaceOrderArgs) : Promise PlaceOrderArgs :=
  priceLots' <- borsh_i64 (priceLots args) ;;
  maxBaseLots' <- borsh_i64 (maxBaseLots args) ;;
  maxQuoteLotsIncludingFees' <- borsh_i64 (maxQuoteLotsIncludingFees args) ;;
  clientOrderId' <- borsh_u64 (clientOrderId args) ;;
  expiryTimestamp' <- borsh_u64 (expiryTimestamp args) ;;
  ret {| side := side args;
         priceLots := priceLots';
         maxBaseLots := maxBaseLots';
         maxQuoteLotsIncludingFees := maxQuoteLotsIncludingFees';
         clientOrderId := clientOrderId';
         orderType := orderType args;
         expiryTimestamp := expiryTimestamp';
         selfTradeBehavior := selfTradeBehavior args;
         limit := limit args |}.

(** Lines 116-129: the accounts given to [placeOrder]. *)
Definition placeOrderAccounts (ob : Openbook.t) (wallet_pk : PublicKey)
    (market : Market.t) (ask : option bool) (mint openOrdersAccount : PublicKey)
  : PlaceOrder.accounts :=
  {| PlaceOrder.openOrdersAccount := openOrdersAccount;
     PlaceOrder.asks := Market.asks (Market.account market);
     PlaceOrder.bids := Market.bids (Market.account market);
     PlaceOrder.eventHeap := Market.eventHeap (Market.account market);
     PlaceOrder.market := Market.publicKey market;
     PlaceOrder.marketVault :=
       if flag ask then Market.marketBaseVault (Market.account market)
       else Market.marketQuoteVault (Market.account market);
     PlaceOrder.twapMarket := twapMarketAddress market;
     PlaceOrder.userTokenAccount := getAssociatedTokenAddressSync mint wallet_pk;
     PlaceOrder.openbookProgram := Openbook.programId ob |}.

(** Lines 46-136. *)
Definition placeOrderTransactions (h : Hooks) (amount price : number)
    (market : Market.t) (limitOrder ask pass : option bool)
    (indexOffset : option number) : Promise (option (list Transaction)) :=
  match wallet_publicKey h, openbook h, openbookTwap h with
  | Some wallet_pk, Some ob, Some _ =>
      let mint := if flag ask then Market.baseMint (Market.account market)
                  else Market.quoteMint (Market.account market) in
      let openTx := {| instructions := [] |} in
      let openOrdersIndexer := findOpenOrdersIndexer wallet_pk in
      '(accountIndex, openTx) <-
         openOrdersIndex ob wallet_pk openOrdersIndexer indexOffset openTx ;;
      '(ixs, openOrdersAccount) <-
         createOpenOrdersInstruction (Openbook.program ob) (Market.publicKey market)
           accountIndex
           (shortKey wallet_pk ++ "-" ++ BN_toString accountIndex)
           wallet_pk openOrdersIndexer ;;
      openTx <- Transaction_add openTx (map Raw ixs) ;;
      args <- placeOrderArgs amount price limitOrder ask accountIndex ;;
      data <- encodePlaceOrderArgs args ;;
      let placeTx :=
        methods_transaction OnOpenbookTwap
          (placeOrder data
             (placeOrderAccounts ob wallet_pk market ask mint openOrdersAccount))
          (instructions openTx) in
      ret (Some [placeTx])
  | _, _, _ => ret None
  end.

(** [openbook.program.coder.types.decode('FillEvent', buf)]: the decoded
    event is a new object, and so is the key in it; [next] is the first free
    heap address. *)
Definition decodeFillEvent (p : OpenbookProgram) (buf : list byte) (next : nat)
  : FillEvent :=
  {| maker := mkRef next (coder_decode_FillEvent p buf) |}.

Definition decodeOutEvent (p : OpenbookProgram) (buf : list byte) (next : nat)
  : OutEvent :=
  {| owner := mkRef next (coder_decode_OutEvent p buf) |}.

(** Lines 150-162 (and again 172-184): the body of the loop over the nodes. *)
Definition addEventAccount (p : OpenbookProgram) (node : EventNode) (next : nat)
    (accounts : list (Ref PublicKey)) : list (Ref PublicKey) :=
  if is_zero_strict (eventType (event node)) then
    let fillEvent := decodeFillEvent p (x00 :: padding (event node)) next in
    filter (fun a => negb (same_object a (maker fillEvent))) accounts
      ++ [maker fillEvent]
  else
    let outEvent := decodeOutEvent p (x00 :: padding (event node)) next in
    filter (fun a => negb (same_object a (owner outEvent))) accounts
      ++ [owner outEvent].

(** Lines 149-167: the loop that stops once more than 20 accounts are held. *)
Fixpoint collectAccounts (p : OpenbookProgram) (nodes : list EventNode) (next : nat)
    (accounts : list (Ref PublicKey)) : list (Ref PublicKey) :=
  match nodes with
  | [] => accounts
  | node :: rest =>
      let accounts := addEventAccount p node next accounts in
      if Nat.ltb 20 (List.length accounts) then accounts
      else collectAccounts p rest (S next) accounts
  end.

(** Lines 171-185: the loop of the [individualEvent] branch, with no stop. *)
Fixpoint collectAllAccounts (p : OpenbookProgram) (nodes : list EventNode) (next : nat)
    (accounts : list (Ref PublicKey)) : list (Ref PublicKey) :=
  match nodes with
  | [] => accounts
  | node :: rest =>
      collectAllAccounts p rest (S next) (addEventAccount p node next accounts)
  end.

(** Lines 143-198: the remaining accounts handed to [consumeEvents]. *)
Definition crankRemainingAccounts (p : OpenbookProgram) (_eventHeap : option EventHeap)
    (individualEvent : option PublicKey) : list AccountMeta :=
  let accounts :=
    match individualEvent, _eventHeap with
    | None, Some heap => collectAccounts p (nodes heap) 0 []
    | Some _, Some heap => collectAllAccounts p (nodes heap) 0 []
    | _, None => []
    end in
  let accountsMeta :=
    map (fun remaining =>
           {| pubkey := remaining; isSigner := false; isWritable := true |})
        accounts in
  match individualEvent with
  | Some ie =>
      filter (fun order =>
                String.eqb (PublicKey_toString (deref (pubkey order)))
                           (PublicKey_toString ie))
             accountsMeta
  | None => accountsMeta
  end.

(** Lines 138-223. *)
Definition crankMarketTransactions (h : Hooks) (market : Market.t)
    (eventHeap : PublicKey) (individualEvent : option PublicKey)
  : Promise (option (list VersionedTransaction)) :=
  match wallet_publicKey h, openbook h, openbookTwap h with
  | Some _, Some ob, Some _ =>
      _eventHeap <- account_eventHeap_fetch (Openbook.program ob) eventHeap ;;
      let filteredAccounts :=
        crankRemainingAccounts (Openbook.program ob) _eventHeap individualEvent in
      let crankIx :=
        methods_instruction OnOpenbook
          (consumeEvents (BN_new (number_of_nat (List.length filteredAccounts)))
             {| ConsumeEvents.consumeEventsAdmin := Openbook.programId ob;
                ConsumeEvents.market := Market.publicKey market;
                ConsumeEvents.eventHeap := Market.eventHeap (Market.account market) |}
             filteredAccounts) in
      match provider h with
      | None => Rejected
      | Some prov =>
          latestBlockhash <- connection_getLatestBlockhash prov ;;
          let vtx :=
            {| payerKey := provider_wallet_publicKey prov;
               v0_instructions := [crankIx];
               recentBlockhash := latestBlockhash;
               addressLookupTableAccounts := None |} in
          ret (Some [vtx])
      end
  | _, _, _ => ret None
  end.

(** Lines 237-294. *)
Definition settleFundsTransactions (h : Hooks) (orderId : BN) (passMarket : bool)
    (proposal : Proposal.t) (market : Market.t)
  : Promise (option (list Transaction)) :=
  match wallet_publicKey h, openbook h with
  | Some wallet_pk, Some ob =>
      quoteVault <- getVaultMint h (Proposal.quoteVault (Proposal.account proposal)) ;;
      baseVault <- getVaultMint h (Proposal.baseVault (Proposal.account proposal)) ;;
      let openOrdersAccount := findOpenOrders orderId wallet_pk in
      let userBasePass :=
        getAssociatedTokenAddressSync (conditionalOnFinalizeTokenMint baseVault) wallet_pk in
      let userQuotePass :=
        getAssociatedTokenAddressSync (conditionalOnFinalizeTokenMint quoteVault) wallet_pk in
      let userBaseFail :=
        getAssociatedTokenAddressSync (conditionalOnRevertTokenMint baseVault) wallet_pk in
      let userQuoteFail :=
        getAssociatedTokenAddressSync (conditionalOnRevertTokenMint quoteVault) wallet_pk in
      let '(userBaseAccount, userQuoteAccount) :=
        if passMarket then (userBasePass, userQuotePass)
        else (userBaseFail, userQuoteFail) in
      let placeTx :=
        methods_transaction OnOpenbook
          (settleFunds
             {| SettleFunds.owner := wallet_pk;
                SettleFunds.penaltyPayer := wallet_pk;
                SettleFunds.openOrdersAccount := openOrdersAccount;
                SettleFunds.market := Market.publicKey market;
                SettleFunds.marketAuthority := Market.marketAuthority (Market.account market);
                SettleFunds.marketBaseVault := Market.marketBaseVault (Market.account market);
                SettleFunds.marketQuoteVault := Market.marketQuoteVault (Market.account market);
                SettleFunds.userBaseAccount := userBaseAccount;
                SettleFunds.userQuoteAccount := userQuoteAccount;
                SettleFunds.referrerAccount := None;
                SettleFunds.tokenProgram := TOKEN_PROGRAM_ID;
                SettleFunds.systemProgram := SYSTEM_PROGRAM |})
          [] in
      ret (Some [placeTx])
  | _, _ => ret None
  end.

(** Lines 296-317. *)
Definition closeOpenOrdersAccountTransactions (h : Hooks) (orderId : BN)
  : Promise (option (list Transaction)) :=
  match wallet_publicKey h, openbook h with
  | Some wallet_pk, Some ob =>
      let openOrdersIndexer := findOpenOrdersIndexer wallet_pk in
      let openOrdersAccount := findOpenOrders orderId wallet_pk in
      let closeTx :=
        methods_transaction OnOpenbook
          (closeOpenOrdersAccount
             {| CloseOpenOrdersAccount.owner := wallet_pk;
                CloseOpenOrdersAccount.openOrdersIndexer := openOrdersIndexer;
                CloseOpenOrdersAccount.openOrdersAccount := openOrdersAccount;
                CloseOpenOrdersAccount.solDestination := wallet_pk |})
          [] in
      ret (Some [closeTx])
  | _, _ => ret None
  end.

(** Lines 319-344. *)
Definition cancelOrderTransactions (h : Hooks) (orderId : BN) (market : Market.t)
  : Promise (option (list Transaction)) :=
  match wallet_publicKey h, openbook h, openbookTwap h with
  | Some wallet_pk, Some ob, Some _ =>
      let openOrdersAccount := findOpenOrders orderId wallet_pk in
      let placeTx :=
        methods_transaction OnOpenbookTwap
          (cancelOrderByClientId orderId
             {| CancelOrderByClientId.openOrdersAccount := openOrdersAccount;
                CancelOrderByClientId.asks := Market.asks (Market.account market);
                CancelOrderByClientId.bids := Market.bids (Market.account market);
                CancelOrderByClientId.market := Market.publicKey market;
                CancelOrderByClientId.twapMarket := twapMarketAddress market;
                CancelOrderByClientId.openbookProgram := Openbook.programId ob |})
          [] in
      ret (Some [placeTx])
  | _, _, _ => ret None
  end.

End UseOpenbookTwap.

(** ** ProposalList *)

(** The React element tree, as far as the component builds it: a tag, its
    props as written in the JSX (name and value), and its children. *)
Inductive TextPart : Type :=
| Str (s : string)
| Num (n : number).

Inductive Action : Type :=
| RouterPush (url : list TextPart).

#[local] Unset Elimination Schemes.
Inductive Element : Type :=
| Loader
| Group (props : list (string * string)) (children : list Element)
| Stack (props : list (string * string)) (children : list Element)
| Text (props : list (string * string)) (children : list TextPart)
| Card (key : string) (props : list (string * string)) (children : list Element)
| Link (href : string) (children : list Element)
| Button (props : list (string * string)) (onClick : Action) (children : list Element)
| StateBadge (proposal : Proposal.t)
| IconCoin
| IconExternalLink.
#[local] Set Elimination Schemes.

(** The [key] of an element, when it has one. *)
Definition elementKey (e : Element) : option string :=
  match e with
  | Card key _ _ => Some key
  | _ => None
  end.

(** The contents of the [Text] elements below [e], in document order. *)
Fixpoint texts (e : Element) : list (list TextPart) :=
  match e with
  | Text _ parts => [parts]
  | Group _ cs | Stack _ cs | Card _ _ cs | Link _ cs | Button _ _ cs =>
      flat_map texts cs
  | _ => []
  end.

(** The targets of the [Link] elements below [e], in document order. *)
Fixpoint links (e : Element) : list string :=
  match e with
  | Link href cs => href :: flat_map links cs
  | Group _ cs | Stack _ cs | Card _ _ cs | Button _ _ cs => flat_map links cs
  | _ => []
  end.

Section ProposalListComponent.
Context {ext : Externals}.
Local Open Scope string_scope.

(** Lines 26-65: the card of one proposal. *)
Definition ProposalCard (proposal : Proposal.t) : Element :=
  Card (PublicKey_toString (Proposal.publicKey proposal))
    [("shadow", "sm"); ("radius", "md"); ("withBorder", "true");
     ("m", "0"); ("px", "24"); ("py", "12")]
    [ Stack [("pr", "sm")]
        [ Group [("justify", "space-between")]
            [ Text [("size", "xl"); ("fw", "500")]
                [Str "Proposal #";
                 Num (Proposal.number (Proposal.account proposal) + 1)%float];
              StateBadge proposal ];
          Group [("justify", "space-between")]
            [ Link (Proposal.descriptionUrl (Proposal.account proposal))
                [ Group [("gap", "sm")]
                    [ Text [] [Str "Go to description"]; IconExternalLink ] ];
              Text []
                [Str "Proposed by ";
                 Str (shortKey (Proposal.proposer (Proposal.account proposal)))] ] ];
      Group []
        [ Button [("m", "sm"); ("variant", "default"); ("fullWidth", "true")]
            (RouterPush
               [Str "/proposal?id="; Num (Proposal.number (Proposal.account proposal))])
            [ Group [] [ Text [] [Str "Trade"]; IconCoin ] ] ] ].

(** Lines 11-73; [proposals] is what [useAutocrat()] holds. *)
Definition ProposalList (proposals : option (list Proposal.t)) : Element :=
  match proposals with
  | None => Group [("justify", "center")] [Loader]
  | Some proposals =>
      if Nat.ltb 0 (List.length proposals) then
        Stack [] (map ProposalCard proposals)
      else
        Text [("size", "lg"); ("ta", "center"); ("fw", "bold")]
          [Str "There are no proposals yet"]
  end.

End ProposalListComponent.

(** ** A world to run the hook in

    An instance of the imports on which the definitions above compute.  The
    address derivations of the libraries are hashes; here they are replaced
    by string operations that keep their arguments apart.  [BN_new] truncates
    a finite number. *)

Module Example.

Definition key (s : string) : PublicKey := list_byte_of_string s.

Definition Z_of_number (x : number) : Z :=
  match Prim2SF x with
  | S754_finite s m e =>
      let a := if (0 <=? e)%Z then (Z.pos m * 2 ^ e)%Z else (Z.pos m / 2 ^ (- e))%Z in
      if s then (- a)%Z else a
  | _ => 0%Z
  end.

Definition openOrdersInstruction (name : string) : TransactionInstruction :=
  {| ix_programId := key "openbook"; ix_keys := []; ix_data := list_byte_of_string name |}.

Definition externals : Externals :=
  {| PublicKey_new := key;
     PublicKey_toString := string_of_list_byte;
     findProgramAddressSync := fun seeds programId =>
       (key "pda:" ++ List.concat seeds ++ key "@" ++ programId, 255%float);
     TOKEN_PROGRAM_ID := key "token";
     getAssociatedTokenAddressSync := fun mint owner =>
       key "ata:" ++ mint ++ key "/" ++ owner;
     BN_new := Z_of_number;
     OPENBOOK_TWAP_PROGRAM_ID := key "twap";
     QUOTE_LOTS := 0x1.a36e2eb1c432dp-14%float;
     shortKey := fun k => String.substring 0 4 (string_of_list_byte k);
     findOpenOrders := fun accountIndex owner =>
       key "oo:" ++ owner ++ key "#" ++ key (BN_toString accountIndex);
     findOpenOrdersIndexer := fun owner => key "ooi:" ++ owner;
     createOpenOrdersIndexerInstruction := fun _ _ _ =>
       Resolved (openOrdersInstruction "createOpenOrdersIndexer");
     createOpenOrdersInstruction := fun _ _ accountIndex name owner _ =>
       Resolved ([openOrdersInstruction name],
                 key "oo:" ++ owner ++ key "#" ++ key (BN_toString accountIndex)) |}.

(** The key of a fill or out event sits at bytes 24 to 55 of the event. *)
Definition eventKey (buf : list byte) : PublicKey := firstn 32 (skipn 24 buf).

Definition program (indexer : Promise (option OpenOrdersIndexer))
    (heap : Promise (option EventHeap)) : OpenbookProgram :=
  {| account_openOrdersIndexer_fetch := fun _ => indexer;
     account_eventHeap_fetch := fun _ => heap;
     coder_decode_FillEvent := eventKey;
     coder_decode_OutEvent := eventKey |}.

Definition wallet : PublicKey := key "wallet".

Definition rpc : Provider :=
  {| connection_getLatestBlockhash := Resolved "blockhash"%string;
     provider_wallet_publicKey := wallet |}.

Definition vault (name : string) : ConditionalVault :=
  {| conditionalOnFinalizeTokenMint := key "pass-" ++ key name;
     conditionalOnRevertTokenMint := key "fail-" ++ key name |}.

Definition hooks (indexer : Promise (option OpenOrdersIndexer))
    (heap : Promise (option EventHeap)) : Hooks :=
  {| wallet_publicKey := Some wallet;
     provider := Some rpc;
     getVaultMint := fun v => Resolved (vault (string_of_list_byte v));
     openbook := Some {| Openbook.program := program indexer heap;
                         Openbook.programId := key "openbook" |} |}.

(** A disconnected wallet. *)
Definition hooks_no_wallet : Hooks :=
  {| wallet_publicKey := None;
     provider := Some rpc;
     getVaultMint := fun v => Resolved (vault (string_of_list_byte v));
     openbook := Some {| Openbook.program := program Rejected Rejected;
                         Openbook.programId := key "openbook" |} |}.

Definition market : Market.t :=
  {| Market.publicKey := key "market";
     Market.account :=
       {| Market.baseMint := key "base-mint";
          Market.quoteMint := key "quote-mint";
          Market.asks := key "asks";
          Market.bids := key "bids";
          Market.eventHeap := key "event-heap";
          Market.marketAuthority := key "authority";
          Market.marketBaseVault := key "base-vault";
          Market.marketQuoteVault := key "quote-vault" |} |}.

Definition proposal (n : number) : Proposal.t :=
  {| Proposal.publicKey := key "proposal";
     Proposal.account :=
       {| Proposal.number := n;
          Proposal.proposer := key "proposer";
          Proposal.descriptionUrl := "https://example.org/p"%string;
          Proposal.baseVault := key "base";
          Proposal.quoteVault := key "quote" |} |}.

(** An event of the heap: its type tag and, in the 143 bytes after the tag,
    the key at offset 23. *)
Definition eventNode (tag : number) (k : PublicKey) : EventNode :=
  {| event := {| eventType := tag;
                 padding := repeat x00 23 ++ k ++ repeat x00 88 |} |}.

Definition alice : PublicKey := repeat x07 32.

(** Two fill events of the same maker. *)
Definition heap_same_maker : EventHeap :=
  {| nodes := [eventNode 0%float alice; eventNode 0%float alice] |}.

(** The indexer account of a wallet that opened no order yet. *)
Definition fresh_indexer : Promise (option OpenOrdersIndexer) :=
  Resolved (Some {| createdCounter := 0%float |}).

(** Twenty-five out events of twenty-five owners. *)
Definition bob (i : nat) : PublicKey := repeat x00 i ++ repeat x01 (32 - i).

Definition heap_busy : EventHeap :=
  {| nodes := map (fun i => eventNode 1%float (bob i)) (seq 0 25) |}.

End Example.

(** ** The rest of the hook and of the component *)

(** [useTransactionSender()]: the hook that signs and submits. *)
Record TransactionSender (R : Type) : Type := {
  send : list VersionedTransaction -> Promise R
}.

Section CrankMarket.
Context {ext : Externals}.

(** Lines 225-235. *)
Definition crankMarket {R : Type} (h : Hooks) (sender : TransactionSender R)
    (market : Market.t) (eventHeap : PublicKey) (individualEvent : option PublicKey)
  : Promise (option R) :=
  txs <- crankMarketTransactions h market eventHeap individualEvent ;;
  match txs with
  | None => ret None
  | Some txs => r <- send sender txs ;; ret (Some r)
  end.

End CrankMarket.

(** The key the loop body of [crankMarketTransactions] reads from a node:
    the maker of a fill event, the owner of any other event. *)
Definition nodeKey (p : OpenbookProgram) (node : EventNode) : PublicKey :=
  if is_zero_strict (eventType (event node)) then
    coder_decode_FillEvent p (x00 :: padding (event node))
  else
    coder_decode_OutEvent p (x00 :: padding (event node)).

(** The [onClick] handlers of the [Button] elements below [e], in document
    order. *)
Fixpoint actions (e : Element) : list Action :=
  match e with
  | Button _ onClick cs => onClick :: flat_map actions cs
  | Group _ cs | Stack _ cs | Card _ _ cs | Link _ cs => flat_map actions cs
  | _ => []
  end.

(** The proposals whose [StateBadge] is shown below [e], in document order. *)
Fixpoint badges (e : Element) : list Proposal.t :=
  match e with
  | StateBadge proposal => [proposal]
  | Group _ cs | Stack _ cs | Card _ _ cs | Link _ cs | Button _ _ cs =>
      flat_map badges cs
  | _ => []
  end.

(** More worlds to run the hook in. *)

Module Scenario.

(** The open-orders helpers of [../lib/openbook] when the RPC node is down. *)
Definition externals_offline : Externals :=
  {| PublicKey_new := PublicKey_new (Externals := Example.externals);
     PublicKey_toString := PublicKey_toString (Externals := Example.externals);
     findProgramAddressSync := findProgramAddressSync (Externals := Example.externals);
     TOKEN_PROGRAM_ID := TOKEN_PROGRAM_ID (Externals := Example.externals);
     getAssociatedTokenAddressSync :=
       getAssociatedTokenAddressSync (Externals := Example.externals);
     BN_new := BN_new (Externals := Example.externals);
     OPENBOOK_TWAP_PROGRAM_ID :=
       OPENBOOK_TWAP_PROGRAM_ID (Externals := Example.externals);
     QUOTE_LOTS := QUOTE_LOTS (Externals := Example.externals);
     shortKey := shortKey (Externals := Example.externals);
     findOpenOrders := findOpenOrders (Externals := Example.externals);
     findOpenOrdersIndexer := findOpenOrdersIndexer (Externals := Example.externals);
     createOpenOrdersIndexerInstruction := fun _ _ _ => Rejected;
     createOpenOrdersInstruction := fun _ _ _ _ _ _ => Rejected |}.

(** A connected wallet and an order-book client, but no provider. *)
Definition hooks_no_provider : Hooks :=
  {| wallet_publicKey := Some Example.wallet;
     provider := None;
     getVaultMint := fun v => Resolved (Example.vault (string_of_list_byte v));
     openbook := Some {| Openbook.program := Example.program Rejected Rejected;
                         Openbook.programId := Example.key "openbook" |} |}.

(** The vault accounts cannot be fetched. *)
Definition hooks_no_vault : Hooks :=
  {| wallet_publicKey := Some Example.wallet;
     provider := Some Example.rpc;
     getVaultMint := fun _ => Rejected;
     openbook := Some {| Openbook.program := Example.program Rejected Rejected;
                         Openbook.programId := Example.key "openbook" |} |}.

(** The provider cannot fetch a blockhash. *)
Definition hooks_no_blockhash (heap : Promise (option EventHeap)) : Hooks :=
  {| wallet_publicKey := Some Example.wallet;
     provider := Some {| connection_getLatestBlockhash := Rejected;
                         provider_wallet_publicKey := Example.wallet |};
     getVaultMint := fun v => Resolved (Example.vault (string_of_list_byte v));
     openbook := Some {| Openbook.program := Example.program Rejected heap;
                         Openbook.programId := Example.key "openbook" |} |}.

(** Twenty-five fill events of one maker. *)
Definition heap_one_maker : EventHeap :=
  {| nodes := repeat (Example.eventNode 0%float Example.alice) 25 |}.

(** A sender that answers with the number of transactions it was given. *)
Definition counting_sender : TransactionSender nat :=
  {| send := fun txs => Resolved (List.length txs) |}.

(** A second proposal, with its own key. *)
Definition proposal2 : Proposal.t :=
  {| Proposal.publicKey := Example.key "proposal-2";
     Proposal.account :=
       {| Proposal.number := 5%float;
          Proposal.proposer := Example.key "proposer";
          Proposal.descriptionUrl := "https://example.org/q"%string;
          Proposal.baseVault := Example.key "base";
          Proposal.quoteVault := Example.key "quote" |} |}.

(** bn.js on the numbers [borsh_i64] leaves to it: the low 64 bits of the
    magnitude are complemented, bits 64 to 77 are cleared, one is added, and
    the result must fit eight bytes. *)
Definition twos : TwosComplement :=
  {| toTwos64_wide := fun v =>
       let a := Z.abs v in
       if ((a <? 2 ^ 78) && negb (a mod 2 ^ 64 =? 0))%Z%bool
       then Resolved (as_i64 (2 ^ 64 - a mod 2 ^ 64))
       else Rejected |}.

(** The same wallet on a client of another order-book deployment. *)
Definition hooks_other_program : Hooks :=
  {| wallet_publicKey := Some Example.wallet;
     provider := Some Example.rpc;
     getVaultMint := fun v => Resolved (Example.vault (string_of_list_byte v));
     openbook := Some {| Openbook.program := Example.program Rejected Rejected;
                         Openbook.programId := Example.key "openbook-devnet" |} |}.

End Scenario.

(** * Properties *)

(** ** Shared lemmas *)

Lemma bind_resolved {A B : Type} (c : Promise A) (k : A -> Promise B) (a : A) :
  c = Resolved a -> bind c k = k a.
Proof. intros ->. reflexivity. Qed.

Lemma Transaction_add_nonempty (tx : Transaction) (items : list Instruction) :
  items <> [] ->
  Transaction_add tx items = Resolved {| instructions := instructions tx ++ items |}.
Proof. destruct items; [congruence | reflexivity]. Qed.

Lemma map_Raw_nonempty (ixs : list TransactionInstruction) :
  ixs <> [] -> map Raw ixs <> [].
Proof. destruct ixs; [congruence | discriminate]. Qed.

Lemma flag_true (b : option bool) : b = Some true -> flag b = true.
Proof. now intros ->. Qed.

Lemma flag_false (b : option bool) : b <> Some true -> flag b = false.
Proof. destruct b as [[|]|]; [congruence | reflexivity | reflexivity]. Qed.

Ltac pow_consts :=
  change (2 ^ 64)%Z with 18446744073709551616%Z in *;
  change (2 ^ 63)%Z with 9223372036854775808%Z in *.

(** The encoder leaves a number that fits its field as it is, reads one of
    2^63 and more back negative, and throws from 2^64 on. *)
Lemma borsh_i64_fits {tc : TwosComplement} (v : BN) :
  (0 <= v < 2 ^ 63)%Z -> borsh_i64 v = Resolved v.
Proof.
  intros Hv. unfold borsh_i64, as_i64. pow_consts.
  destruct (Z.leb_spec 0 v); [|lia].
  destruct (Z.ltb_spec v 18446744073709551616); [|lia].
  destruct (Z.ltb_spec v 9223372036854775808); [reflexivity | lia].
Qed.

Lemma borsh_i64_wraps {tc : TwosComplement} (v : BN) :
  (2 ^ 63 <= v < 2 ^ 64)%Z -> borsh_i64 v = Resolved (v - 2 ^ 64)%Z.
Proof.
  intros Hv. unfold borsh_i64, as_i64. pow_consts.
  destruct (Z.leb_spec 0 v); [|lia].
  destruct (Z.ltb_spec v 18446744073709551616); [|lia].
  destruct (Z.ltb_spec v 9223372036854775808); [lia | reflexivity].
Qed.

Lemma borsh_i64_too_wide {tc : TwosComplement} (v : BN) :
  (2 ^ 64 <= v)%Z -> borsh_i64 v = Rejected.
Proof.
  intros Hv. unfold borsh_i64. pow_consts.
  destruct (Z.leb_spec 0 v); [|lia].
  destruct (Z.ltb_spec v 18446744073709551616); [lia | reflexivity].
Qed.

Lemma borsh_u64_fits (v : BN) :
  (0 <= v < 2 ^ 64)%Z -> borsh_u64 v = Resolved v.
Proof.
  intros Hv. unfold borsh_u64. pow_consts.
  rewrite Z.abs_eq by lia.
  destruct (Z.ltb_spec v 18446744073709551616); [reflexivity | lia].
Qed.

Section PlaceOrderLemmas.
Context {ext : Externals} {tc : TwosComplement}.

Lemma new_BN_safe n : safe_for_BN n = true -> new_BN n = Resolved (BN_new n).
Proof. unfold new_BN. now intros ->. Qed.

Lemma new_BN_unsafe n : safe_for_BN n = false -> new_BN n = Rejected.
Proof. unfold new_BN. now intros ->. Qed.

(** Whatever the indexer fetch does, [openTx] holds ready-made instructions
    only, and at most one, when the account index is known. *)
Lemma openOrdersIndex_raw ob wallet_pk idx indexOffset accountIndex openTx :
  openOrdersIndex ob wallet_pk idx indexOffset {| instructions := [] |}
    = Resolved (accountIndex, openTx) ->
  exists pre, instructions openTx = map Raw pre /\ List.length pre <= 1.
Proof.
  unfold openOrdersIndex.
  change (new_BN 1%float) with (Resolved (BN_new 1%float)).
  cbn [bind]. unfold try_catch.
  assert (Hcatch :
    (if negb (truthy_opt indexOffset)
     then ix <- createOpenOrdersIndexerInstruction (Openbook.program ob) idx wallet_pk ;;
          openTx0 <- Transaction_add {| instructions := [] |} [Raw ix] ;;
          ret (BN_new 1%float, openTx0)
     else accountIndex0 <- new_BN (1 + or_zero indexOffset)%float ;;
          ret (accountIndex0, {| instructions := [] |}))
    = Resolved (accountIndex, openTx) ->
    exists pre, instructions openTx = map Raw pre /\ List.length pre <= 1).
  { destruct (negb (truthy_opt indexOffset)).
    - destruct (createOpenOrdersIndexerInstruction _ _ _) as [ix|]; [|discriminate].
      cbn. intros [= _ <-]. exists [ix]. split; [reflexivity | cbn; lia].
    - destruct (new_BN _); [|discriminate].
      cbn. intros [= _ <-]. exists []. split; [reflexivity | cbn; lia]. }
  destruct (account_openOrdersIndexer_fetch (Openbook.program ob) idx) as [indexer|];
    cbn [bind]; [|exact Hcatch].
  destruct (new_BN (or_zero (option_map createdCounter indexer) + 1
                    + or_zero indexOffset)%float);
    cbn [bind ret]; [|exact Hcatch].
  intros [= _ <-]. exists []. split; [reflexivity | cbn; lia].
Qed.

(** With the guard passed and the open-orders helpers resolved, what is left
    of the call is to build the arguments and to encode them. *)
Lemma placeOrderTransactions_stages h amount price market limitOrder ask pass
    indexOffset wallet_pk ob prov accountIndex openTx ixs openOrdersAccount :
  wallet_publicKey h = Some wallet_pk ->
  openbook h = Some ob ->
  provider h = Some prov ->
  openOrdersIndex ob wallet_pk (findOpenOrdersIndexer wallet_pk) indexOffset
    {| instructions := [] |} = Resolved (accountIndex, openTx) ->
  createOpenOrdersInstruction (Openbook.program ob) (Market.publicKey market)
    accountIndex (shortKey wallet_pk ++ "-" ++ BN_toString accountIndex)
    wallet_pk (findOpenOrdersIndexer wallet_pk) = Resolved (ixs, openOrdersAccount) ->
  ixs <> [] ->
  placeOrderTransactions h amount price market limitOrder ask pass indexOffset
  = (args <- placeOrderArgs amount price limitOrder ask accountIndex ;;
     data <- encodePlaceOrderArgs args ;;
     ret (Some
       [ {| instructions :=
              (instructions openTx ++ map Raw ixs) ++
              [Method OnOpenbookTwap
                 (placeOrder data
                    (placeOrderAccounts ob wallet_pk market ask
                       (if flag ask then Market.baseMint (Market.account market)
                        else Market.quoteMint (Market.account market))
                       openOrdersAccount))] |} ])).
Proof.
  intros Hw Hob Hp Hidx Hcreate Hne.
  unfold placeOrderTransactions, openbookTwap.
  rewrite Hw, Hob, Hp.
  rewrite (bind_resolved _ Hidx).
  rewrite (bind_resolved _ Hcreate).
  rewrite (bind_resolved _ (Transaction_add_nonempty openTx (map_Raw_nonempty Hne))).
  reflexivity.
Qed.

(** The transaction built when, moreover, the arguments are built and
    encoded. *)
Lemma placeOrderTransactions_resolved h amount price market limitOrder ask pass
    indexOffset wallet_pk ob prov accountIndex openTx ixs openOrdersAccount
    args data :
  wallet_publicKey h = Some wallet_pk ->
  openbook h = Some ob ->
  provider h = Some prov ->
  openOrdersIndex ob wallet_pk (findOpenOrdersIndexer wallet_pk) indexOffset
    {| instructions := [] |} = Resolved (accountIndex, openTx) ->
  createOpenOrdersInstruction (Openbook.program ob) (Market.publicKey market)
    accountIndex (shortKey wallet_pk ++ "-" ++ BN_toString accountIndex)
    wallet_pk (findOpenOrdersIndexer wallet_pk) = Resolved (ixs, openOrdersAccount) ->
  ixs <> [] ->
  placeOrderArgs amount price limitOrder ask accountIndex = Resolved args ->
  encodePlaceOrderArgs args = Resolved data ->
  placeOrderTransactions h amount price market limitOrder ask pass indexOffset
  = Resolved (Some
      [ {| instructions :=
             (instructions openTx ++ map Raw ixs) ++
             [Method OnOpenbookTwap
                (placeOrder data
                   (placeOrderAccounts ob wallet_pk market ask
                      (if flag ask then Market.baseMint (Market.account market)
                       else Market.quoteMint (Market.account market))
                      openOrdersAccount))] |} ]).
Proof.
  intros Hw Hob Hp Hidx Hcreate Hne Hargs Hdata.
  rewrite (@placeOrderTransactions_stages h amount price market limitOrder ask pass
             indexOffset _ _ _ _ _ _ _ Hw Hob Hp Hidx Hcreate Hne).
  rewrite Hargs. cbn [bind]. rewrite Hdata. reflexivity.
Qed.

(** The [args] object, whenever it is built. *)
Lemma placeOrderArgs_fields amount price limitOrder ask accountIndex args :
  placeOrderArgs amount price limitOrder ask accountIndex = Resolved args ->
  maxBaseLots args = BN_new (Math_floor amount)
  /\ (limitOrder = Some true ->
      priceLots args = BN_new (Math_floor (price / QUOTE_LOTS)%float)
      /\ maxQuoteLotsIncludingFees args
         = BN_mul (priceLots args) (maxBaseLots args))
  /\ (limitOrder <> Some true -> ask = Some true ->
      priceLots args = BN_new 1%float
      /\ maxQuoteLotsIncludingFees args
         = BN_new (Math_floor (10 / QUOTE_LOTS)%float))
  /\ (limitOrder <> Some true -> ask <> Some true ->
      priceLots args = BN_new 1000000000000000%float
      /\ maxQuoteLotsIncludingFees args
         = BN_mul (priceLots args) (maxBaseLots args))
  /\ clientOrderId args = accountIndex
  /\ expiryTimestamp args = BN_new 0%float
  /\ limit args = 255%float
  /\ side args = (if flag ask then Side.Ask else Side.Bid)
  /\ orderType args = (if flag limitOrder then OrderType.Limit else OrderType.Market)
  /\ selfTradeBehavior args = SelfTradeBehavior.AbortTransaction.
Proof.
  unfold placeOrderArgs, new_BN.
  change (safe_for_BN 1%float) with true.
  change (safe_for_BN 1000000000000000%float) with true.
  change (safe_for_BN 0%float) with true.
  destruct (safe_for_BN (Math_floor (price / QUOTE_LOTS)%float)); [|discriminate].
  destruct (safe_for_BN (Math_floor amount)); [|discriminate].
  cbn [bind].
  destruct (flag limitOrder) eqn:Hlimit, (flag ask) eqn:Hask; cbn [negb bind ret];
    try (destruct (safe_for_BN (Math_floor (10 / QUOTE_LOTS)%float));
         [|discriminate]; cbn [bind ret]);
    intros [= <-]; cbn;
    repeat split; intros;
    try match goal with
        | Hl : limitOrder = Some true |- _ =>
            rewrite (flag_true Hl) in Hlimit; discriminate
        | Hl : limitOrder <> Some true |- _ =>
            rewrite (flag_false Hl) in Hlimit; discriminate
        | Ha : ask = Some true |- _ =>
            rewrite (flag_true Ha) in Hask; discriminate
        | Ha : ask <> Some true |- _ =>
            rewrite (flag_false Ha) in Hask; discriminate
        end.
Qed.

(** The arguments never get built when the price or the amount is out of
    the range of [new BN]. *)
Lemma placeOrderArgs_unsafe amount price limitOrder ask accountIndex :
  safe_for_BN (Math_floor (price / QUOTE_LOTS)%float) = false
  \/ safe_for_BN (Math_floor amount) = false ->
  placeOrderArgs amount price limitOrder ask accountIndex = Rejected.
Proof.
  intros [Hprice | Hamount]; unfold placeOrderArgs, new_BN.
  - rewrite Hprice. reflexivity.
  - rewrite Hamount.
    destruct (safe_for_BN (Math_floor (price / QUOTE_LOTS)%float)); reflexivity.
Qed.

(** What the encoder writes, whenever it writes. *)
Lemma encodePlaceOrderArgs_fields args data :
  encodePlaceOrderArgs args = Resolved data ->
  borsh_i64 (priceLots args) = Resolved (priceLots data)
  /\ borsh_i64 (maxBaseLots args) = Resolved (maxBaseLots data)
  /\ borsh_i64 (maxQuoteLotsIncludingFees args)
     = Resolved (maxQuoteLotsIncludingFees data)
  /\ borsh_u64 (clientOrderId args) = Resolved (clientOrderId data)
  /\ borsh_u64 (expiryTimestamp args) = Resolved (expiryTimestamp data)
  /\ side data = side args
  /\ orderType data = orderType args
  /\ selfTradeBehavior data = selfTradeBehavior args
  /\ limit data = limit args.
Proof.
  unfold encodePlaceOrderArgs.
  destruct (borsh_i64 (priceLots args)); [|discriminate].
  destruct (borsh_i64 (maxBaseLots args)); [|discriminate].
  destruct (borsh_i64 (maxQuoteLotsIncludingFees args)); [|discriminate].
  destruct (borsh_u64 (clientOrderId args)); [|discriminate].
  destruct (borsh_u64 (expiryTimestamp args)); [|discriminate].
  cbn. intros [= <-]. cbn. repeat split.
Qed.

Lemma encodePlaceOrderArgs_too_wide args :
  (2 ^ 64 <= maxQuoteLotsIncludingFees args)%Z ->
  encodePlaceOrderArgs args = Rejected.
Proof.
  intros Hwide. unfold encodePlaceOrderArgs.
  destruct (borsh_i64 (priceLots args)); [|reflexivity].
  destruct (borsh_i64 (maxBaseLots args)); [|reflexivity].
  cbn [bind]. rewrite (borsh_i64_too_wide Hwide). reflexivity.
Qed.

(** Arguments that fit their fields are written as they are. *)
Lemma encodePlaceOrderArgs_fits args :
  (0 <= priceLots args < 2 ^ 63)%Z ->
  (0 <= maxBaseLots args < 2 ^ 63)%Z ->
  (0 <= maxQuoteLotsIncludingFees args < 2 ^ 63)%Z ->
  (0 <= clientOrderId args < 2 ^ 64)%Z ->
  (0 <= expiryTimestamp args < 2 ^ 64)%Z ->
  encodePlaceOrderArgs args = Resolved args.
Proof.
  intros Hp Hb Hq Hc He. unfold encodePlaceOrderArgs.
  rewrite (borsh_i64_fits Hp), (borsh_i64_fits Hb), (borsh_i64_fits Hq),
    (borsh_u64_fits Hc), (borsh_u64_fits He).
  destruct args; reflexivity.
Qed.

End PlaceOrderLemmas.

(** ** placeOrderTransactions *)

Section PlaceOrderClaims.
Context {ext : Externals} {tc : TwosComplement}.

(** C1.  When the guard of [placeOrderTransactions] passes (wallet key and
    both program handles present), the awaited open-orders helpers resolve
    and the arguments are built and encoded, the call returns exactly one
    transaction.  Its instructions are the ready-made open-orders
    instructions followed by a single [placeOrder] built on the TWAP program,
    in which [marketVault] is the market's base vault when [ask] is true and
    its quote vault otherwise, [userTokenAccount] is the wallet's associated
    token address for the base mint when [ask] is true and for the quote mint
    otherwise, and [twapMarket] is the program address of the seeds
    ['twap_market'] and the market's key under the TWAP program id. *)
Theorem placeOrder_account_layout h amount price market limitOrder ask pass
    indexOffset wallet_pk ob prov accountIndex openTx ixs openOrdersAccount
    args data :
  wallet_publicKey h = Some wallet_pk ->
  openbook h = Some ob ->
  provider h = Some prov ->
  openOrdersIndex ob wallet_pk (findOpenOrdersIndexer wallet_pk) indexOffset
    {| instructions := [] |} = Resolved (accountIndex, openTx) ->
  createOpenOrdersInstruction (Openbook.program ob) (Market.publicKey market)
    accountIndex (shortKey wallet_pk ++ "-" ++ BN_toString accountIndex)
    wallet_pk (findOpenOrdersIndexer wallet_pk) = Resolved (ixs, openOrdersAccount) ->
  ixs <> [] ->
  placeOrderArgs amount price limitOrder ask accountIndex = Resolved args ->
  encodePlaceOrderArgs args = Resolved data ->
  exists pre accounts,
    placeOrderTransactions h amount price market limitOrder ask pass indexOffset
    = Resolved (Some
        [ {| instructions :=
               map Raw pre ++ [Method OnOpenbookTwap (placeOrder data accounts)] |} ])
    /\ (ask = Some true ->
        PlaceOrder.marketVault accounts
          = Market.marketBaseVault (Market.account market)
        /\ PlaceOrder.userTokenAccount accounts
          = getAssociatedTokenAddressSync
              (Market.baseMint (Market.account market)) wallet_pk)
    /\ (ask <> Some true ->
        PlaceOrder.marketVault accounts
          = Market.marketQuoteVault (Market.account market)
        /\ PlaceOrder.userTokenAccount accounts
          = getAssociatedTokenAddressSync
              (Market.quoteMint (Market.account market)) wallet_pk)
    /\ PlaceOrder.twapMarket accounts
       = fst (findProgramAddressSync
                [Buffer_from "twap_market"; toBuffer (Market.publicKey market)]
                OPENBOOK_TWAP_PROGRAM_ID).
Proof.
  intros Hw Hob Hp Hidx Hcreate Hne Hargs Hdata.
  destruct (openOrdersIndex_raw _ _ _ _ Hidx) as (pre0 & Hpre & _).
  exists (pre0 ++ ixs). eexists. split.
  - rewrite (@placeOrderTransactions_resolved ext tc h amount price market limitOrder
               ask pass indexOffset _ _ _ _ _ _ _ _ _
               Hw Hob Hp Hidx Hcreate Hne Hargs Hdata).
    rewrite Hpre, <- map_app. reflexivity.
  - cbn. split; [|split; [|reflexivity]].
    + intros Hask. now rewrite (flag_true Hask).
    + intros Hask. now rewrite (flag_false Hask).
Qed.

(** Where the arguments cannot be built or encoded the call rejects: when
    [floor(price / QUOTE_LOTS)] or [floor(amount)] is out of the range of
    [new BN], and when [maxQuoteLotsIncludingFees] needs more than eight
    bytes. *)
Lemma placeOrder_rejects_out_of_range h amount price market limitOrder ask pass
    indexOffset wallet_pk ob prov accountIndex openTx ixs openOrdersAccount :
  wallet_publicKey h = Some wallet_pk ->
  openbook h = Some ob ->
  provider h = Some prov ->
  openOrdersIndex ob wallet_pk (findOpenOrdersIndexer wallet_pk) indexOffset
    {| instructions := [] |} = Resolved (accountIndex, openTx) ->
  createOpenOrdersInstruction (Openbook.program ob) (Market.publicKey market)
    accountIndex (shortKey wallet_pk ++ "-" ++ BN_toString accountIndex)
    wallet_pk (findOpenOrdersIndexer wallet_pk) = Resolved (ixs, openOrdersAccount) ->
  ixs <> [] ->
  (safe_for_BN (Math_floor (price / QUOTE_LOTS)%float) = false
   \/ safe_for_BN (Math_floor amount) = false ->
   placeOrderTransactions h amount price market limitOrder ask pass indexOffset
   = Rejected)
  /\ (forall args,
      placeOrderArgs amount price limitOrder ask accountIndex = Resolved args ->
      (2 ^ 64 <= maxQuoteLotsIncludingFees args)%Z ->
      placeOrderTransactions h amount price market limitOrder ask pass indexOffset
      = Rejected).
Proof.
  intros Hw Hob Hp Hidx Hcreate Hne. split.
  - intros Hunsafe.
    rewrite (@placeOrderTransactions_stages ext tc h amount price market limitOrder
               ask pass indexOffset _ _ _ _ _ _ _ Hw Hob Hp Hidx Hcreate Hne).
    now rewrite (@placeOrderArgs_unsafe ext amount price limitOrder ask accountIndex Hunsafe).
  - intros args Hargs Hwide.
    rewrite (@placeOrderTransactions_stages ext tc h amount price market limitOrder
               ask pass indexOffset _ _ _ _ _ _ _ Hw Hob Hp Hidx Hcreate Hne).
    rewrite Hargs. cbn [bind].
    now rewrite (encodePlaceOrderArgs_too_wide _ Hwide).
Qed.


End PlaceOrderClaims.

Lemma placeOrder_account_layout_witness :
  exists pre accounts,
    placeOrderTransactions (ext := Example.externals) (tc := Scenario.twos)
      (Example.hooks Example.fresh_indexer Rejected) 2.5%float 0.5%float
      Example.market (Some true) (Some true) None None
    = Resolved (Some
        [ {| instructions :=
               map Raw pre
               ++ [Method OnOpenbookTwap
                     (placeOrder
                        {| side := Side.Ask;
                           priceLots := 5000%Z;
                           maxBaseLots := 2%Z;
                           maxQuoteLotsIncludingFees := 10000%Z;
                           clientOrderId := 1%Z;
                           orderType := OrderType.Limit;
                           expiryTimestamp := 0%Z;
                           selfTradeBehavior := SelfTradeBehavior.AbortTransaction;
                           limit := 255%float |}
                        accounts)] |} ])
    /\ (Some true = Some true ->
        PlaceOrder.marketVault accounts = Example.key "base-vault"
        /\ PlaceOrder.userTokenAccount accounts
           = Example.key "ata:base-mint/wallet")
    /\ (Some true <> Some true ->
        PlaceOrder.marketVault accounts = Example.key "quote-vault"
        /\ PlaceOrder.userTokenAccount accounts
           = Example.key "ata:quote-mint/wallet")
    /\ PlaceOrder.twapMarket accounts = Example.key "pda:twap_marketmarket@twap".
Proof.
  eapply (placeOrder_account_layout (ext := Example.externals) (tc := Scenario.twos)
            (Example.hooks Example.fresh_indexer Rejected) 2.5%float 0.5%float
            Example.market (Some true) (Some true) None None);
    try reflexivity.
  discriminate.
Defined.


(** A market bid of 20000 lots needs nine bytes for its quote lots, and a
    market ask at a price of 10^13 has 10^17 price lots at line 91: both
    calls reject. *)
Example placeOrder_rejects_wide_orders :
  placeOrderTransactions (ext := Example.externals) (tc := Scenario.twos)
    (Example.hooks Example.fresh_indexer Rejected) 20000%float 0.5%float
    Example.market None None None None = Rejected
  /\ placeOrderTransactions (ext := Example.externals) (tc := Scenario.twos)
       (Example.hooks Example.fresh_indexer Rejected) 1%float 10000000000000%float
       Example.market None (Some true) None None = Rejected.
Proof. split; vm_compute; reflexivity. Qed.


(** ** The indexer fetch in placeOrderTransactions *)

(** C4, as stated, fails: with every other input fixed, the run in which the
    fetch of the open-orders indexer account fails builds three
    instructions and the run in which it succeeds builds two. *)
Lemma placeOrder_fetch_outcome_changes_instructions :
  exists tx_ok tx_fail,
    placeOrderTransactions (ext := Example.externals) (tc := Scenario.twos)
      (Example.hooks Example.fresh_indexer Rejected) 2.5%float 0.5%float
      Example.market (Some true) (Some true) None None
    = Resolved (Some [tx_ok])
    /\ placeOrderTransactions (ext := Example.externals) (tc := Scenario.twos)
         (Example.hooks Rejected Rejected) 2.5%float 0.5%float
         Example.market (Some true) (Some true) None None
       = Resolved (Some [tx_fail])
    /\ instructions tx_ok <> instructions tx_fail.
Proof.
  eexists. eexists. split; [|split].
  - vm_compute. reflexivity.
  - vm_compute. reflexivity.
  - intros Heq. apply (f_equal (@List.length _)) in Heq. discriminate.
Qed.

Section IndexerFetch.
Context {ext : Externals} {tc : TwosComplement}.

(** C4, amended.  The instructions of the transaction returned by
    [placeOrderTransactions] depend on the fetch of the open-orders indexer
    account, which the function catches.  When the fetch resolves and
    [createdCounter + 1 + indexOffset] is in the range of [new BN], that is
    the account index and no instruction is added for the indexer.  When the
    [try] fails (the fetch rejects, or that number is out of range) and
    [indexOffset] is absent or falsy, the account index is 1 and an
    instruction creating the indexer comes first.  When the [try] fails and
    [indexOffset] is truthy, the account index is [1 + indexOffset], if in
    range, and no instruction is added for the indexer.  In all three cases,
    when the arguments are built and encoded, the open-orders instructions
    for that account index and the [placeOrder] instruction follow, and the
    account index is the [clientOrderId] of the arguments. *)
Theorem placeOrder_indexer_fetch_cases h amount price market limitOrder ask pass
    indexOffset wallet_pk ob prov :
  wallet_publicKey h = Some wallet_pk ->
  openbook h = Some ob ->
  provider h = Some prov ->
  let idx := findOpenOrdersIndexer wallet_pk in
  let fetched := account_openOrdersIndexer_fetch (Openbook.program ob) idx in
  let counted indexer :=
    (or_zero (option_map createdCounter indexer) + 1 + or_zero indexOffset)%float in
  let try_failed :=
    fetched = Rejected
    \/ exists indexer,
         fetched = Resolved indexer /\ safe_for_BN (counted indexer) = false in
  let create accountIndex :=
    createOpenOrdersInstruction (Openbook.program ob) (Market.publicKey market)
      accountIndex (shortKey wallet_pk ++ "-" ++ BN_toString accountIndex)
      wallet_pk idx in
  let run :=
    placeOrderTransactions h amount price market limitOrder ask pass indexOffset in
  let built data pre ixs openOrdersAccount :=
    Resolved (Some
      [ {| instructions :=
             map Raw (pre ++ ixs) ++
             [Method OnOpenbookTwap
                (placeOrder data
                   (placeOrderAccounts ob wallet_pk market ask
                      (if flag ask then Market.baseMint (Market.account market)
                       else Market.quoteMint (Market.account market))
                      openOrdersAccount))] |} ]) in
  (forall indexer ixs openOrdersAccount args data,
      let accountIndex := BN_new (counted indexer) in
      fetched = Resolved indexer ->
      safe_for_BN (counted indexer) = true ->
      create accountIndex = Resolved (ixs, openOrdersAccount) ->
      ixs <> [] ->
      placeOrderArgs amount price limitOrder ask accountIndex = Resolved args ->
      encodePlaceOrderArgs args = Resolved data ->
      run = built data [] ixs openOrdersAccount
      /\ clientOrderId args = accountIndex)
  /\ (forall ix ixs openOrdersAccount args data,
      try_failed ->
      truthy_opt indexOffset = false ->
      createOpenOrdersIndexerInstruction (Openbook.program ob) idx wallet_pk
        = Resolved ix ->
      create (BN_new 1%float) = Resolved (ixs, openOrdersAccount) ->
      ixs <> [] ->
      placeOrderArgs amount price limitOrder ask (BN_new 1%float) = Resolved args ->
      encodePlaceOrderArgs args = Resolved data ->
      run = built data [ix] ixs openOrdersAccount
      /\ clientOrderId args = BN_new 1%float)
  /\ (forall ixs openOrdersAccount args data,
      let accountIndex := BN_new (1 + or_zero indexOffset)%float in
      try_failed ->
      truthy_opt indexOffset = true ->
      safe_for_BN (1 + or_zero indexOffset)%float = true ->
      create accountIndex = Resolved (ixs, openOrdersAccount) ->
      ixs <> [] ->
      placeOrderArgs amount price limitOrder ask accountIndex = Resolved args ->
      encodePlaceOrderArgs args = Resolved data ->
      run = built data [] ixs openOrdersAccount
      /\ clientOrderId args = accountIndex).
Proof.
  intros Hw Hob Hp idx fetched counted try_failed create run built.
  subst idx fetched counted try_failed create run built. cbv zeta.
  assert (Hfailed : forall handler : Promise (BN * Transaction),
    (account_openOrdersIndexer_fetch (Openbook.program ob)
       (findOpenOrdersIndexer wallet_pk) = Rejected
     \/ exists indexer,
          account_openOrdersIndexer_fetch (Openbook.program ob)
            (findOpenOrdersIndexer wallet_pk) = Resolved indexer
          /\ safe_for_BN (or_zero (option_map createdCounter indexer) + 1
                          + or_zero indexOffset)%float = false) ->
    try_catch
      (indexer <- account_openOrdersIndexer_fetch (Openbook.program ob)
                    (findOpenOrdersIndexer wallet_pk) ;;
       accountIndex <-
         new_BN (or_zero (option_map createdCounter indexer) + 1
                 + or_zero indexOffset)%float ;;
       ret (accountIndex, {| instructions := [] |}))
      handler = handler).
  { intros handler [Hfetch | (indexer & Hfetch & Hunsafe)]; rewrite Hfetch.
    - reflexivity.
    - cbn [bind]. rewrite (new_BN_unsafe _ Hunsafe). reflexivity. }
  split; [|split].
  - intros indexer ixs ooa args data Hfetch Hsafe Hcreate Hne Hargs Hdata.
    assert (Hidx :
      openOrdersIndex ob wallet_pk (findOpenOrdersIndexer wallet_pk) indexOffset
        {| instructions := [] |}
      = Resolved
          (BN_new (or_zero (option_map createdCounter indexer) + 1
                   + or_zero indexOffset)%float,
           {| instructions := [] |})).
    { unfold openOrdersIndex, try_catch.
      change (new_BN 1%float) with (Resolved (BN_new 1%float)). cbn [bind].
      rewrite Hfetch. cbn [bind]. rewrite (new_BN_safe _ Hsafe). reflexivity. }
    split; [|apply (placeOrderArgs_fields _ _ _ _ _ Hargs)].
    rewrite (@placeOrderTransactions_resolved ext tc h amount price market limitOrder
               ask pass indexOffset _ _ _ _ _ _ _ _ _
               Hw Hob Hp Hidx Hcreate Hne Hargs Hdata).
    reflexivity.
  - intros ix ixs ooa args data Hfail Hoff Hix Hcreate Hne Hargs Hdata.
    assert (Hidx :
      openOrdersIndex ob wallet_pk (findOpenOrdersIndexer wallet_pk) indexOffset
        {| instructions := [] |}
      = Resolved (BN_new 1%float, {| instructions := [Raw ix] |})).
    { unfold openOrdersIndex.
      change (new_BN 1%float) with (Resolved (BN_new 1%float)). cbn [bind].
      rewrite (Hfailed _ Hfail), Hoff, Hix. reflexivity. }
    split; [|apply (placeOrderArgs_fields _ _ _ _ _ Hargs)].
    rewrite (@placeOrderTransactions_resolved ext tc h amount price market limitOrder
               ask pass indexOffset _ _ _ _ _ _ _ _ _
               Hw Hob Hp Hidx Hcreate Hne Hargs Hdata).
    reflexivity.
  - intros ixs ooa args data Hfail Hoff Hsafe Hcreate Hne Hargs Hdata.
    assert (Hidx :
      openOrdersIndex ob wallet_pk (findOpenOrdersIndexer wallet_pk) indexOffset
        {| instructions := [] |}
      = Resolved (BN_new (1 + or_zero indexOffset)%float, {| instructions := [] |})).
    { unfold openOrdersIndex.
      change (new_BN 1%float) with (Resolved (BN_new 1%float)). cbn [bind].
      rewrite (Hfailed _ Hfail), Hoff. cbn [negb].
      rewrite (new_BN_safe _ Hsafe). reflexivity. }
    split; [|apply (placeOrderArgs_fields _ _ _ _ _ Hargs)].
    rewrite (@placeOrderTransactions_resolved ext tc h amount price market limitOrder
               ask pass indexOffset _ _ _ _ _ _ _ _ _
               Hw Hob Hp Hidx Hcreate Hne Hargs Hdata).
    reflexivity.
Qed.

End IndexerFetch.

Lemma placeOrder_indexer_fetch_cases_witness :
  exists data accounts,
    placeOrderTransactions (ext := Example.externals) (tc := Scenario.twos)
      (Example.hooks Rejected Rejected) 2.5%float 0.5%float
      Example.market (Some true) (Some true) None None
    = Resolved (Some
        [ {| instructions :=
               [Raw (Example.openOrdersInstruction "createOpenOrdersIndexer");
                Raw (Example.openOrdersInstruction "wall-1");
                Method OnOpenbookTwap (placeOrder data accounts)] |} ])
    /\ clientOrderId data = 1%Z.
Proof.
  eexists. eexists. split.
  - apply (proj1 (proj2
      (placeOrder_indexer_fetch_cases (ext := Example.externals) (tc := Scenario.twos)
         (Example.hooks Rejected Rejected) 2.5%float 0.5%float
         Example.market (Some true) (Some true) None None
         (wallet_pk := Example.wallet) eq_refl eq_refl eq_refl))
      (Example.openOrdersInstruction "createOpenOrdersIndexer")
      [Example.openOrdersInstruction "wall-1"]
      (Example.key "oo:wallet#1")
      {| side := Side.Ask;
         priceLots := 5000%Z;
         maxBaseLots := 2%Z;
         maxQuoteLotsIncludingFees := 10000%Z;
         clientOrderId := 1%Z;
         orderType := OrderType.Limit;
         expiryTimestamp := 0%Z;
         selfTradeBehavior := SelfTradeBehavior.AbortTransaction;
         limit := 255%float |});
      try reflexivity.
    + left. reflexivity.
    + discriminate.
  - reflexivity.
Defined.

(** ** settleFundsTransactions *)

Section SettleFundsClaims.
Context {ext : Externals}.

(** C3.  When the guard of [settleFundsTransactions] passes (wallet key and
    order-book client present) and both vaults are fetched, the call returns
    one transaction holding one [settleFunds] instruction.  Its
    [userBaseAccount] and [userQuoteAccount] are the wallet's associated
    token addresses for the conditional-on-finalize mints of the base and
    quote vaults when [passMarket] is true, and for their
    conditional-on-revert mints when it is false; [owner] and [penaltyPayer]
    are the wallet key and [referrerAccount] is null. *)
Theorem settleFunds_account_layout h orderId passMarket proposal market
    wallet_pk ob quoteVault baseVault :
  wallet_publicKey h = Some wallet_pk ->
  openbook h = Some ob ->
  getVaultMint h (Proposal.quoteVault (Proposal.account proposal))
    = Resolved quoteVault ->
  getVaultMint h (Proposal.baseVault (Proposal.account proposal))
    = Resolved baseVault ->
  exists accounts,
    settleFundsTransactions h orderId passMarket proposal market
    = Resolved (Some [ {| instructions := [Method OnOpenbook (settleFunds accounts)] |} ])
    /\ (passMarket = true ->
        SettleFunds.userBaseAccount accounts
          = getAssociatedTokenAddressSync
              (conditionalOnFinalizeTokenMint baseVault) wallet_pk
        /\ SettleFunds.userQuoteAccount accounts
          = getAssociatedTokenAddressSync
              (conditionalOnFinalizeTokenMint quoteVault) wallet_pk)
    /\ (passMarket = false ->
        SettleFunds.userBaseAccount accounts
          = getAssociatedTokenAddressSync
              (conditionalOnRevertTokenMint baseVault) wallet_pk
        /\ SettleFunds.userQuoteAccount accounts
          = getAssociatedTokenAddressSync
              (conditionalOnRevertTokenMint quoteVault) wallet_pk)
    /\ SettleFunds.owner accounts = wallet_pk
    /\ SettleFunds.penaltyPayer accounts = wallet_pk
    /\ SettleFunds.referrerAccount accounts = None.
Proof.
  intros Hw Hob Hq Hb.
  unfold settleFundsTransactions. rewrite Hw, Hob, Hq, Hb. cbn [bind].
  destruct passMarket; cbn; eexists; (split; [reflexivity|]);
    cbn; repeat split; intros; congruence.
Qed.

End SettleFundsClaims.

Lemma settleFunds_account_layout_witness :
  exists accounts,
    settleFundsTransactions (ext := Example.externals)
      (Example.hooks Rejected Rejected) 7%Z true
      (Example.proposal 4%float) Example.market
    = Resolved (Some [ {| instructions := [Method OnOpenbook (settleFunds accounts)] |} ])
    /\ SettleFunds.userBaseAccount accounts = Example.key "ata:pass-base/wallet"
    /\ SettleFunds.userQuoteAccount accounts = Example.key "ata:pass-quote/wallet".
Proof.
  destruct (settleFunds_account_layout (ext := Example.externals)
              (Example.hooks Rejected Rejected) 7%Z true
              (Example.proposal 4%float) Example.market
              (wallet_pk := Example.wallet) eq_refl eq_refl eq_refl eq_refl)
    as (accounts & Hrun & Hpass & _).
  exists accounts. split; [exact Hrun|].
  destruct (Hpass eq_refl) as [Hb Hq]. rewrite Hb, Hq. split; reflexivity.
Defined.

(** ** crankMarketTransactions *)

Lemma filter_keeps_all {A : Type} (f : A -> bool) (l : list A) :
  Forall (fun a => f a = true) l -> filter f l = l.
Proof.
  induction 1 as [|a l Ha _ IH]; cbn; [reflexivity|].
  now rewrite Ha, IH.
Qed.

Section CrankLemmas.
Context {ext : Externals}.

(** One pass of the loop body adds at most one account. *)
Lemma addEventAccount_length p node next accounts :
  List.length (addEventAccount p node next accounts) <= S (List.length accounts).
Proof.
  unfold addEventAccount.
  destruct (is_zero_strict (eventType (event node)));
    rewrite length_app; cbn [List.length];
    match goal with |- context [filter ?f accounts] =>
      pose proof (filter_length_le f accounts) end; lia.
Qed.

(** The loop with the [break] never holds more than 21 accounts. *)
Lemma collectAccounts_length p nodes : forall next accounts,
  List.length accounts <= 20 ->
  List.length (collectAccounts p nodes next accounts) <= 21.
Proof.
  induction nodes as [|node rest IH]; intros next accounts Hlen; cbn [collectAccounts].
  - lia.
  - pose proof (addEventAccount_length p node next accounts) as Hstep.
    destruct (Nat.ltb 20 (List.length (addEventAccount p node next accounts))) eqn:Hfull.
    + lia.
    + apply IH. apply Nat.ltb_ge in Hfull. exact Hfull.
Qed.

(** A decoded key sits at a fresh address, so the [filter] of the loop body
    removes nothing: the body appends. *)
Lemma addEventAccount_appends p node next accounts :
  Forall (fun a => addr a < next) accounts ->
  exists k, addEventAccount p node next accounts = accounts ++ [mkRef next k].
Proof.
  intros Hold.
  assert (Hfresh : forall k : PublicKey,
             filter (fun a => negb (same_object a (mkRef next k))) accounts = accounts).
  { intros k. apply filter_keeps_all. eapply Forall_impl; [|exact Hold].
    cbn. intros a Ha. unfold same_object; cbn [addr].
    destruct (Nat.eqb_spec (addr a) next); [lia | reflexivity]. }
  unfold addEventAccount, decodeFillEvent, decodeOutEvent.
  destruct (is_zero_strict (eventType (event node))); cbn [maker owner];
    rewrite Hfresh; eexists; reflexivity.
Qed.

Lemma crankRemainingAccounts_flags p heap individualEvent :
  Forall (fun m => isWritable m = true /\ isSigner m = false)
         (crankRemainingAccounts p heap individualEvent).
Proof.
  unfold crankRemainingAccounts.
  set (accounts := match individualEvent, heap with
                   | None, Some heap => _ | Some _, Some heap => _ | _, None => _ end).
  assert (Hall : Forall (fun m => isWritable m = true /\ isSigner m = false)
                   (map (fun remaining =>
                           {| pubkey := remaining; isSigner := false;
                              isWritable := true |}) accounts)).
  { apply Forall_map. apply Forall_forall. intros; cbn; split; reflexivity. }
  destruct individualEvent as [ie|]; [|exact Hall].
  apply Forall_forall. intros m Hin. apply filter_In in Hin.
  rewrite Forall_forall in Hall. apply Hall, Hin.
Qed.

(** The transaction built when the guard passes and the two awaited calls
    resolve. *)
Lemma crankMarketTransactions_resolved h market eventHeap individualEvent
    wallet_pk ob prov heap blockhash :
  wallet_publicKey h = Some wallet_pk ->
  openbook h = Some ob ->
  provider h = Some prov ->
  account_eventHeap_fetch (Openbook.program ob) eventHeap = Resolved heap ->
  connection_getLatestBlockhash prov = Resolved blockhash ->
  crankMarketTransactions h market eventHeap individualEvent
  = let remaining :=
      crankRemainingAccounts (Openbook.program ob) heap individualEvent in
    Resolved (Some
      [ {| payerKey := provider_wallet_publicKey prov;
           v0_instructions :=
             [Method OnOpenbook
                (consumeEvents (BN_new (number_of_nat (List.length remaining)))
                   {| ConsumeEvents.consumeEventsAdmin := Openbook.programId ob;
                      ConsumeEvents.market := Market.publicKey market;
                      ConsumeEvents.eventHeap :=
                        Market.eventHeap (Market.account market) |}
                   remaining)];
           recentBlockhash := blockhash;
           addressLookupTableAccounts := None |} ]).
Proof.
  intros Hw Hob Hp Hheap Hhash.
  unfold crankMarketTransactions, openbookTwap.
  rewrite Hw, Hob, Hp, Hheap. cbn [bind]. rewrite Hhash. reflexivity.
Qed.

(** C9.  When the guard of [crankMarketTransactions] passes and the event
    heap and the blockhash are fetched, the call returns one transaction with
    one [consumeEvents] instruction.  Without an [individualEvent] its
    remaining accounts are at most 21; every remaining account is writable
    and not a signer; the [limit] argument is the number of remaining
    accounts; with an [individualEvent] every remaining account has the
    string of that key. *)
Theorem crank_remaining_accounts h market eventHeap individualEvent
    wallet_pk ob prov heap blockhash :
  wallet_publicKey h = Some wallet_pk ->
  openbook h = Some ob ->
  provider h = Some prov ->
  account_eventHeap_fetch (Openbook.program ob) eventHeap = Resolved heap ->
  connection_getLatestBlockhash prov = Resolved blockhash ->
  exists limit accounts remaining,
    crankMarketTransactions h market eventHeap individualEvent
    = Resolved (Some
        [ {| payerKey := provider_wallet_publicKey prov;
             v0_instructions :=
               [Method OnOpenbook (consumeEvents limit accounts remaining)];
             recentBlockhash := blockhash;
             addressLookupTableAccounts := None |} ])
    /\ (individualEvent = None -> List.length remaining <= 21)
    /\ Forall (fun m => isWritable m = true /\ isSigner m = false) remaining
    /\ limit = BN_new (number_of_nat (List.length remaining))
    /\ (forall ie, individualEvent = Some ie ->
        Forall (fun m => PublicKey_toString (deref (pubkey m))
                         = PublicKey_toString ie) remaining).
Proof.
  intros Hw Hob Hp Hheap Hhash.
  eexists. eexists. eexists. split.
  - rewrite (@crankMarketTransactions_resolved h market eventHeap individualEvent
               _ _ _ _ _ Hw Hob Hp Hheap Hhash).
    cbv zeta. reflexivity.
  - split; [|split; [|split]].
    + intros ->. unfold crankRemainingAccounts. rewrite length_map.
      destruct heap as [heap|]; [|cbn; lia].
      apply collectAccounts_length. cbn. lia.
    + apply crankRemainingAccounts_flags.
    + reflexivity.
    + intros ie ->. unfold crankRemainingAccounts.
      apply Forall_forall. intros m Hin. apply filter_In in Hin.
      destruct Hin as [_ Heq]. now apply String.eqb_eq in Heq.
Qed.

End CrankLemmas.

Lemma crank_remaining_accounts_witness :
  exists accounts remaining,
    crankMarketTransactions (ext := Example.externals)
      (Example.hooks Rejected (Resolved (Some Example.heap_same_maker)))
      Example.market (Example.key "event-heap") None
    = Resolved (Some
        [ {| payerKey := Example.wallet;
             v0_instructions :=
               [Method OnOpenbook (consumeEvents 2%Z accounts remaining)];
             recentBlockhash := "blockhash";
             addressLookupTableAccounts := None |} ])
    /\ List.length remaining <= 21.
Proof.
  destruct (crank_remaining_accounts (ext := Example.externals)
              (Example.hooks Rejected (Resolved (Some Example.heap_same_maker)))
              Example.market (Example.key "event-heap") None
              (wallet_pk := Example.wallet) eq_refl eq_refl eq_refl eq_refl eq_refl)
    as (limit & accounts & remaining & Hrun & Hlen & _ & Hlimit & _).
  exists accounts, remaining. split; [|exact (Hlen eq_refl)].
  rewrite Hrun, Hlimit.
  vm_compute in Hrun. injection Hrun as _ _ Hrem. subst remaining. reflexivity.
Defined.

(** C6 at two fill events of one maker: the code hands [consumeEvents] two
    remaining accounts holding the same key, where the claim allows one.  The
    two decoded keys are distinct objects, so the [!==] of the loop body
    keeps the first. *)
Theorem crank_repeats_a_maker :
  exists remaining,
    crankMarketTransactions (ext := Example.externals)
      (Example.hooks Rejected (Resolved (Some Example.heap_same_maker)))
      Example.market (Example.key "event-heap") None
    = Resolved (Some
        [ {| payerKey := Example.wallet;
             v0_instructions :=
               [Method OnOpenbook
                  (consumeEvents 2%Z
                     {| ConsumeEvents.consumeEventsAdmin := Example.key "openbook";
                        ConsumeEvents.market := Example.key "market";
                        ConsumeEvents.eventHeap := Example.key "event-heap" |}
                     remaining)];
             recentBlockhash := "blockhash";
             addressLookupTableAccounts := None |} ])
    /\ map (fun m => deref (pubkey m)) remaining = [Example.alice; Example.alice]
    /\ ~ NoDup (map (fun m => deref (pubkey m)) remaining).
Proof.
  eexists. split; [vm_compute; reflexivity|]. split; [reflexivity|].
  cbn. intros Hnodup. inversion Hnodup as [|k l Hnotin _]. apply Hnotin. now left.
Qed.

(** A heap of 25 events of 25 owners: the loop stops at 21 accounts; asked
    for one owner, the hook keeps that owner only. *)
Example crank_stops_at_21 :
  List.length
    (crankRemainingAccounts (ext := Example.externals)
       (Example.program Rejected Rejected) (Some Example.heap_busy) None) = 21
  /\ map (fun m => deref (pubkey m))
       (crankRemainingAccounts (ext := Example.externals)
          (Example.program Rejected Rejected) (Some Example.heap_busy)
          (Some (Example.bob 24)))
     = [Example.bob 24].
Proof. split; vm_compute; reflexivity. Qed.

(** Every pass of the loop without [break] therefore adds an account: the
    list never shrinks, whatever keys the events hold. *)
Lemma collectAllAccounts_length p nodes : forall next accounts,
  Forall (fun a => addr a < next) accounts ->
  List.length (collectAllAccounts p nodes next accounts)
  = List.length accounts + List.length nodes.
Proof.
  induction nodes as [|node rest IH]; intros next accounts Hold;
    cbn [collectAllAccounts List.length].
  - lia.
  - destruct (addEventAccount_appends p node Hold) as [k Hk].
    rewrite Hk, IH.
    + rewrite length_app. cbn. lia.
    + apply Forall_app. split.
      * eapply Forall_impl; [|exact Hold]. cbn. intros; lia.
      * repeat constructor.
Qed.

(** ** Which program each instruction is built on *)

Section ProgramHandles.
Context {ext : Externals} {tc : TwosComplement}.

Lemma placeOrderTransactions_shape h amount price market limitOrder ask pass
    indexOffset txs :
  placeOrderTransactions h amount price market limitOrder ask pass indexOffset
    = Resolved (Some txs) ->
  exists pre args accounts,
    txs = [ {| instructions :=
                 map Raw pre ++ [Method OnOpenbookTwap (placeOrder args accounts)] |} ].
Proof.
  unfold placeOrderTransactions, openbookTwap.
  destruct (wallet_publicKey h) as [wallet_pk|]; [|discriminate].
  destruct (openbook h) as [ob|]; [|discriminate].
  destruct (provider h) as [prov|]; [|discriminate].
  destruct (openOrdersIndex _ _ _ _ _) as [[accountIndex openTx]|] eqn:Hidx;
    [|discriminate].
  cbn [bind].
  destruct (createOpenOrdersInstruction _ _ _ _ _ _) as [[ixs ooa]|];
    [|discriminate].
  cbn [bind].
  destruct (openOrdersIndex_raw _ _ _ _ Hidx) as (pre0 & Hpre & _).
  destruct ixs as [|ix ixs]; [discriminate|].
  cbn [Transaction_add map bind].
  destruct (placeOrderArgs _ _ _ _ _) as [args|]; [|discriminate]. cbn [bind].
  destruct (encodePlaceOrderArgs args) as [data|]; [|discriminate].
  cbn. intros [= <-]. exists (pre0 ++ ix :: ixs). eexists. eexists.
  rewrite Hpre, map_app. reflexivity.
Qed.

(** C5.  [placeOrder] and [cancelOrderByClientId] are built on the TWAP
    program handle; [settleFunds], [closeOpenOrdersAccount] and
    [consumeEvents] are built on the order-book program handle.  Each builder
    whose guard passes and whose awaited calls resolve returns one
    transaction holding the named method on the named handle (first five
    parts), and a builder never returns anything else (last five parts). *)
Theorem methods_program_handles :
  ((forall h amount price market limitOrder ask pass indexOffset wallet_pk ob prov
           accountIndex openTx ixs openOrdersAccount args data,
       wallet_publicKey h = Some wallet_pk ->
       openbook h = Some ob ->
       provider h = Some prov ->
       openOrdersIndex ob wallet_pk (findOpenOrdersIndexer wallet_pk) indexOffset
         {| instructions := [] |} = Resolved (accountIndex, openTx) ->
       createOpenOrdersInstruction (Openbook.program ob) (Market.publicKey market)
         accountIndex (shortKey wallet_pk ++ "-" ++ BN_toString accountIndex)
         wallet_pk (findOpenOrdersIndexer wallet_pk)
         = Resolved (ixs, openOrdersAccount) ->
       ixs <> [] ->
       placeOrderArgs amount price limitOrder ask accountIndex = Resolved args ->
       encodePlaceOrderArgs args = Resolved data ->
       exists pre accounts,
         placeOrderTransactions h amount price market limitOrder ask pass indexOffset
         = Resolved (Some
             [ {| instructions :=
                    map Raw pre
                    ++ [Method OnOpenbookTwap (placeOrder data accounts)] |} ]))
   /\ (forall h orderId market wallet_pk ob prov,
       wallet_publicKey h = Some wallet_pk ->
       openbook h = Some ob ->
       provider h = Some prov ->
       exists accounts,
         cancelOrderTransactions h orderId market
         = Resolved (Some
             [ {| instructions :=
                    [Method OnOpenbookTwap
                       (cancelOrderByClientId orderId accounts)] |} ]))
   /\ (forall h orderId passMarket proposal market wallet_pk ob quoteVault baseVault,
       wallet_publicKey h = Some wallet_pk ->
       openbook h = Some ob ->
       getVaultMint h (Proposal.quoteVault (Proposal.account proposal))
         = Resolved quoteVault ->
       getVaultMint h (Proposal.baseVault (Proposal.account proposal))
         = Resolved baseVault ->
       exists accounts,
         settleFundsTransactions h orderId passMarket proposal market
         = Resolved (Some
             [ {| instructions := [Method OnOpenbook (settleFunds accounts)] |} ]))
   /\ (forall h orderId wallet_pk ob,
       wallet_publicKey h = Some wallet_pk ->
       openbook h = Some ob ->
       exists accounts,
         closeOpenOrdersAccountTransactions h orderId
         = Resolved (Some
             [ {| instructions :=
                    [Method OnOpenbook (closeOpenOrdersAccount accounts)] |} ]))
   /\ (forall h market eventHeap individualEvent wallet_pk ob prov heap blockhash,
       wallet_publicKey h = Some wallet_pk ->
       openbook h = Some ob ->
       provider h = Some prov ->
       account_eventHeap_fetch (Openbook.program ob) eventHeap = Resolved heap ->
       connection_getLatestBlockhash prov = Resolved blockhash ->
       exists limit accounts remaining,
         crankMarketTransactions h market eventHeap individualEvent
         = Resolved (Some
             [ {| payerKey := provider_wallet_publicKey prov;
                  v0_instructions :=
                    [Method OnOpenbook (consumeEvents limit accounts remaining)];
                  recentBlockhash := blockhash;
                  addressLookupTableAccounts := None |} ])))
  /\
  ((forall h amount price market limitOrder ask pass indexOffset txs,
      placeOrderTransactions h amount price market limitOrder ask pass indexOffset
        = Resolved (Some txs) ->
      exists pre args accounts,
        txs = [ {| instructions :=
                     map Raw pre
                     ++ [Method OnOpenbookTwap (placeOrder args accounts)] |} ])
  /\ (forall h orderId market txs,
      cancelOrderTransactions h orderId market = Resolved (Some txs) ->
      exists accounts,
        txs = [ {| instructions :=
                     [Method OnOpenbookTwap
                        (cancelOrderByClientId orderId accounts)] |} ])
  /\ (forall h orderId passMarket proposal market txs,
      settleFundsTransactions h orderId passMarket proposal market
        = Resolved (Some txs) ->
      exists accounts,
        txs = [ {| instructions := [Method OnOpenbook (settleFunds accounts)] |} ])
  /\ (forall h orderId txs,
      closeOpenOrdersAccountTransactions h orderId = Resolved (Some txs) ->
      exists accounts,
        txs = [ {| instructions :=
                     [Method OnOpenbook (closeOpenOrdersAccount accounts)] |} ])
  /\ (forall h market eventHeap individualEvent txs,
      crankMarketTransactions h market eventHeap individualEvent
        = Resolved (Some txs) ->
      exists payer blockhash limit accounts remaining,
        txs = [ {| payerKey := payer;
                   v0_instructions :=
                     [Method OnOpenbook (consumeEvents limit accounts remaining)];
                   recentBlockhash := blockhash;
                   addressLookupTableAccounts := None |} ])).
Proof.
  split; (split; [|split; [|split; [|split]]]).
  - intros h amount price market limitOrder ask pass indexOffset wallet_pk ob prov
      accountIndex openTx ixs ooa args data Hw Hob Hp Hidx Hcreate Hne Hargs Hdata.
    destruct (openOrdersIndex_raw _ _ _ _ Hidx) as (pre0 & Hpre & _).
    exists (pre0 ++ ixs). eexists.
    rewrite (@placeOrderTransactions_resolved ext tc h amount price market limitOrder
               ask pass indexOffset _ _ _ _ _ _ _ _ _
               Hw Hob Hp Hidx Hcreate Hne Hargs Hdata).
    rewrite Hpre, <- map_app. reflexivity.
  - intros h orderId market wallet_pk ob prov Hw Hob Hp.
    unfold cancelOrderTransactions, openbookTwap. rewrite Hw, Hob, Hp.
    eexists. reflexivity.
  - intros h orderId passMarket proposal market wallet_pk ob quoteVault baseVault
      Hw Hob Hq Hb.
    unfold settleFundsTransactions. rewrite Hw, Hob, Hq, Hb. cbn [bind].
    destruct passMarket; eexists; reflexivity.
  - intros h orderId wallet_pk ob Hw Hob.
    unfold closeOpenOrdersAccountTransactions. rewrite Hw, Hob.
    eexists. reflexivity.
  - intros h market eventHeap individualEvent wallet_pk ob prov heap blockhash
      Hw Hob Hp Hheap Hhash.
    unfold crankMarketTransactions, openbookTwap.
    rewrite Hw, Hob, Hp, Hheap. cbn [bind]. rewrite Hhash.
    do 3 eexists. reflexivity.
  - intros. eapply placeOrderTransactions_shape; eassumption.
  - intros h orderId market txs. unfold cancelOrderTransactions, openbookTwap.
    destruct (wallet_publicKey h); [|discriminate].
    destruct (openbook h); [|discriminate].
    destruct (provider h); [|discriminate].
    cbn. intros [= <-]. eexists. reflexivity.
  - intros h orderId passMarket proposal market txs. unfold settleFundsTransactions.
    destruct (wallet_publicKey h); [|discriminate].
    destruct (openbook h); [|discriminate].
    destruct (getVaultMint h _); [|discriminate]. cbn [bind].
    destruct (getVaultMint h _); [|discriminate]. cbn [bind].
    destruct passMarket; cbn; intros [= <-]; eexists; reflexivity.
  - intros h orderId txs. unfold closeOpenOrdersAccountTransactions.
    destruct (wallet_publicKey h); [|discriminate].
    destruct (openbook h); [|discriminate].
    cbn. intros [= <-]. eexists. reflexivity.
  - intros h market eventHeap individualEvent txs.
    unfold crankMarketTransactions, openbookTwap.
    destruct (wallet_publicKey h); [|discriminate].
    destruct (openbook h); [|discriminate].
    destruct (provider h) as [prov|]; [|discriminate].
    destruct (account_eventHeap_fetch _ _); [|discriminate]. cbn [bind].
    destruct (connection_getLatestBlockhash prov); [|discriminate].
    cbn. intros [= <-]. do 5 eexists. reflexivity.
Qed.

End ProgramHandles.

Lemma methods_program_handles_witness :
  (exists pre data accounts,
      placeOrderTransactions (ext := Example.externals) (tc := Scenario.twos)
        (Example.hooks Example.fresh_indexer Rejected) 2.5%float 0.5%float
        Example.market (Some true) (Some true) None None
      = Resolved (Some
          [ {| instructions :=
                 map Raw pre
                 ++ [Method OnOpenbookTwap (placeOrder data accounts)] |} ]))
  /\ (exists accounts,
      cancelOrderTransactions (ext := Example.externals)
        (Example.hooks Rejected Rejected) 7%Z Example.market
      = Resolved (Some
          [ {| instructions :=
                 [Method OnOpenbookTwap (cancelOrderByClientId 7%Z accounts)] |} ]))
  /\ (exists accounts,
      settleFundsTransactions (ext := Example.externals)
        (Example.hooks Rejected Rejected) 7%Z true
        (Example.proposal 4%float) Example.market
      = Resolved (Some
          [ {| instructions := [Method OnOpenbook (settleFunds accounts)] |} ]))
  /\ (exists accounts,
      closeOpenOrdersAccountTransactions (ext := Example.externals)
        (Example.hooks Rejected Rejected) 7%Z
      = Resolved (Some
          [ {| instructions :=
                 [Method OnOpenbook (closeOpenOrdersAccount accounts)] |} ]))
  /\ (exists limit accounts remaining,
      crankMarketTransactions (ext := Example.externals)
        (Example.hooks Rejected (Resolved (Some Example.heap_busy)))
        Example.market (Example.key "event-heap") None
      = Resolved (Some
          [ {| payerKey := Example.wallet;
               v0_instructions :=
                 [Method OnOpenbook (consumeEvents limit accounts remaining)];
               recentBlockhash := "blockhash";
               addressLookupTableAccounts := None |} ])).
Proof.
  destruct (proj1 (methods_program_handles
                     (ext := Example.externals) (tc := Scenario.twos)))
    as (Hplace & Hcancel & Hsettle & Hclose & Hcrank).
  split; [|split; [|split; [|split]]].
  - destruct (Hplace (Example.hooks Example.fresh_indexer Rejected)
                2.5%float 0.5%float Example.market (Some true) (Some true) None None
                Example.wallet _ _ 1%Z {| instructions := [] |}
                [Example.openOrdersInstruction "wall-1"] _ _ _
                eq_refl eq_refl eq_refl eq_refl eq_refl ltac:(discriminate)
                eq_refl eq_refl)
      as (pre & accounts & Hrun).
    exists pre. eexists. exists accounts. exact Hrun.
  - exact (Hcancel (Example.hooks Rejected Rejected) 7%Z Example.market
             Example.wallet _ _ eq_refl eq_refl eq_refl).
  - exact (Hsettle (Example.hooks Rejected Rejected) 7%Z true
             (Example.proposal 4%float) Example.market
             Example.wallet _ _ _ eq_refl eq_refl eq_refl eq_refl).
  - exact (Hclose (Example.hooks Rejected Rejected) 7%Z
             Example.wallet _ eq_refl eq_refl).
  - exact (Hcrank (Example.hooks Rejected (Resolved (Some Example.heap_busy)))
             Example.market (Example.key "event-heap") None
             Example.wallet _ _ _ _ eq_refl eq_refl eq_refl eq_refl eq_refl).
Defined.

(** C8, as stated, fails: two calls with the same wallet key, order id and
    market, made through clients of two order-book deployments, return
    different transactions. *)
Lemma cancelOrder_depends_on_the_program_id :
  wallet_publicKey (Example.hooks Rejected Rejected)
    = wallet_publicKey Scenario.hooks_other_program
  /\ cancelOrderTransactions (ext := Example.externals)
       (Example.hooks Rejected Rejected) 7%Z Example.market
     <> cancelOrderTransactions (ext := Example.externals)
          Scenario.hooks_other_program 7%Z Example.market.
Proof.
  split; [reflexivity|]. vm_compute. discriminate.
Qed.

(** ** cancelOrderTransactions *)

Section CancelOrderClaims.
Context {ext : Externals}.

(** C8, amended.  [cancelOrderTransactions] maps the wallet key, the order
    id, the market and the program id of the order-book client to one fixed
    transaction: two calls whose guard passes, made with the same wallet key,
    order id and market on the same order-book program id, return the same
    single transaction, a [cancelOrderByClientId] of the order id whose
    open-orders account is derived from the order id and the wallet, whose
    [openbookProgram] is that program id and whose other accounts are read
    off the market. *)
Theorem cancelOrder_same_inputs_same_transaction h1 h2 orderId market
    wallet_pk ob1 ob2 prov1 prov2 :
  wallet_publicKey h1 = Some wallet_pk ->
  wallet_publicKey h2 = Some wallet_pk ->
  openbook h1 = Some ob1 ->
  openbook h2 = Some ob2 ->
  Openbook.programId ob1 = Openbook.programId ob2 ->
  provider h1 = Some prov1 ->
  provider h2 = Some prov2 ->
  cancelOrderTransactions h1 orderId market
    = cancelOrderTransactions h2 orderId market
  /\ cancelOrderTransactions h1 orderId market
     = Resolved (Some
         [ {| instructions :=
                [Method OnOpenbookTwap
                   (cancelOrderByClientId orderId
                      {| CancelOrderByClientId.openOrdersAccount :=
                           findOpenOrders orderId wallet_pk;
                         CancelOrderByClientId.asks :=
                           Market.asks (Market.account market);
                         CancelOrderByClientId.bids :=
                           Market.bids (Market.account market);
                         CancelOrderByClientId.market := Market.publicKey market;
                         CancelOrderByClientId.twapMarket :=
                           fst (findProgramAddressSync
                                  [Buffer_from "twap_market";
                                   toBuffer (Market.publicKey market)]
                                  OPENBOOK_TWAP_PROGRAM_ID);
                         CancelOrderByClientId.openbookProgram :=
                           Openbook.programId ob1 |})] |} ]).
Proof.
  intros Hw1 Hw2 Hob1 Hob2 Hid Hp1 Hp2.
  unfold cancelOrderTransactions, openbookTwap.
  rewrite Hw1, Hw2, Hob1, Hob2, Hp1, Hp2, Hid.
  split; reflexivity.
Qed.

End CancelOrderClaims.

Lemma cancelOrder_same_inputs_same_transaction_witness :
  cancelOrderTransactions (ext := Example.externals)
    (Example.hooks Rejected Rejected) 7%Z Example.market
  = cancelOrderTransactions (ext := Example.externals)
      (Example.hooks Example.fresh_indexer (Resolved None)) 7%Z Example.market.
Proof.
  exact (proj1 (cancelOrder_same_inputs_same_transaction (ext := Example.externals)
                  (Example.hooks Rejected Rejected)
                  (Example.hooks Example.fresh_indexer (Resolved None))
                  7%Z Example.market (wallet_pk := Example.wallet)
                  eq_refl eq_refl eq_refl eq_refl eq_refl eq_refl eq_refl)).
Defined.

(** ** The guards *)

Section GuardClaims.
Context {ext : Externals} {tc : TwosComplement}.

(** C10.  A builder whose precondition fails resolves to [undefined] with no
    transaction: [placeOrderTransactions], [crankMarketTransactions] and
    [cancelOrderTransactions] when the wallet key, the order-book client or
    the TWAP program is absent; [settleFundsTransactions] and
    [closeOpenOrdersAccountTransactions] when the wallet key or the
    order-book client is absent. *)
Theorem builders_undefined_when_guard_fails h :
  (wallet_publicKey h = None \/ openbook h = None \/ openbookTwap h = None ->
   (forall amount price market limitOrder ask pass indexOffset,
       placeOrderTransactions h amount price market limitOrder ask pass indexOffset
       = Resolved None)
   /\ (forall market eventHeap individualEvent,
       crankMarketTransactions h market eventHeap individualEvent = Resolved None)
   /\ (forall orderId market,
       cancelOrderTransactions h orderId market = Resolved None))
  /\ (wallet_publicKey h = None \/ openbook h = None ->
      (forall orderId passMarket proposal market,
          settleFundsTransactions h orderId passMarket proposal market
          = Resolved None)
      /\ (forall orderId,
          closeOpenOrdersAccountTransactions h orderId = Resolved None)).
Proof.
  split.
  - intros Hguard.
    unfold placeOrderTransactions, crankMarketTransactions, cancelOrderTransactions.
    destruct (wallet_publicKey h) as [wallet_pk|], (openbook h) as [ob|],
      (openbookTwap h) as [twap|];
      try (repeat split; intros; reflexivity).
    destruct Hguard as [Hw | [Hob | Htwap]]; discriminate.
  - intros Hguard.
    unfold settleFundsTransactions, closeOpenOrdersAccountTransactions.
    destruct (wallet_publicKey h) as [wallet_pk|], (openbook h) as [ob|];
      try (split; intros; reflexivity).
    destruct Hguard as [Hw | Hob]; discriminate.
Qed.

End GuardClaims.

Lemma builders_undefined_when_guard_fails_witness :
  placeOrderTransactions (ext := Example.externals) (tc := Scenario.twos)
    Example.hooks_no_wallet
    2.5%float 0.5%float Example.market (Some true) (Some true) None None
  = Resolved None
  /\ closeOpenOrdersAccountTransactions (ext := Example.externals)
       Example.hooks_no_wallet 7%Z
     = Resolved None.
Proof.
  destruct (builders_undefined_when_guard_fails
              (ext := Example.externals) (tc := Scenario.twos)
              Example.hooks_no_wallet) as [Hthree Htwo].
  split.
  - apply (proj1 (Hthree (or_introl eq_refl))).
  - apply (proj2 (Htwo (or_introl eq_refl))).
Defined.

(** ** ProposalList *)

Section ProposalListClaims.
Context {ext : Externals}.

Lemma ProposalList_nonempty proposal proposals :
  ProposalList (Some (proposal :: proposals))
  = Stack [] (map ProposalCard (proposal :: proposals)).
Proof. reflexivity. Qed.

(** C7.  [ProposalList] renders a centered loader while the proposals are
    undefined and the text 'There are no proposals yet' when the list is
    empty.  Otherwise it renders a stack of cards, one per proposal and in
    the order of the list; the card of a proposal is keyed by the string of
    its public key, its first text is 'Proposal #' followed by the proposal
    number plus one, and its only link goes to the description URL. *)
Theorem ProposalList_renders :
  ProposalList None = Group [("justify", "center")%string] [Loader]
  /\ ProposalList (Some [])
     = Text [("size", "lg"); ("ta", "center"); ("fw", "bold")]%string
         [Str "There are no proposals yet"]
  /\ (forall proposals, proposals <> [] ->
      exists cards,
        ProposalList (Some proposals) = Stack [] cards
        /\ List.length cards = List.length proposals
        /\ forall i proposal, nth_error proposals i = Some proposal ->
           exists card,
             nth_error cards i = Some card
             /\ elementKey card
                = Some (PublicKey_toString (Proposal.publicKey proposal))
             /\ hd_error (texts card)
                = Some [Str "Proposal #";
                        Num (Proposal.number (Proposal.account proposal) + 1)%float]
             /\ links card
                = [Proposal.descriptionUrl (Proposal.account proposal)]).
Proof.
  split; [reflexivity|]. split; [reflexivity|].
  intros proposals Hne.
  destruct proposals as [|p ps]; [congruence|].
  exists (map ProposalCard (p :: ps)).
  split; [apply ProposalList_nonempty|]. split; [apply length_map|].
  intros i proposal Hi. exists (ProposalCard proposal).
  split; [|repeat split].
  rewrite nth_error_map, Hi. reflexivity.
Qed.

End ProposalListClaims.

Lemma ProposalList_renders_witness :
  exists cards,
    ProposalList (ext := Example.externals) (Some [Example.proposal 4%float])
    = Stack [] cards
    /\ List.length cards = 1.
Proof.
  destruct (proj2 (proj2 (ProposalList_renders (ext := Example.externals)))
              [Example.proposal 4%float] ltac:(discriminate))
    as (cards & Hrender & Hlen & _).
  exists cards. split; [exact Hrender | exact Hlen].
Defined.

(** The card of proposal number 4 is titled with 5. *)
Example ProposalCard_title :
  hd_error (texts (ProposalCard (ext := Example.externals) (Example.proposal 4%float)))
  = Some [Str "Proposal #"; Num 5%float].
Proof. vm_compute. reflexivity. Qed.

(** * Further properties *)

(** ** crankMarketTransactions: which accounts are cranked *)

Lemma map_filter_comm {A B : Type} (f : A -> B) (g : B -> bool) (l : list A) :
  map f (filter (fun a => g (f a)) l) = filter g (map f l).
Proof.
  induction l as [|a l IH]; cbn; [reflexivity|].
  destruct (g (f a)); cbn; now rewrite IH.
Qed.

Lemma addEventAccount_appends_key p node next accounts :
  Forall (fun a => addr a < next) accounts ->
  addEventAccount p node next accounts = accounts ++ [mkRef next (nodeKey p node)].
Proof.
  intros Hold.
  assert (Hfresh : forall k : PublicKey,
             filter (fun a => negb (same_object a (mkRef next k))) accounts = accounts).
  { intros k. apply filter_keeps_all. eapply Forall_impl; [|exact Hold].
    cbn. intros a Ha. unfold same_object; cbn [addr].
    destruct (Nat.eqb_spec (addr a) next); [lia | reflexivity]. }
  unfold addEventAccount, decodeFillEvent, decodeOutEvent, nodeKey.
  destruct (is_zero_strict (eventType (event node))); cbn [maker owner];
    rewrite Hfresh; reflexivity.
Qed.

Lemma fresh_after_append next (accounts : list (Ref PublicKey)) k :
  Forall (fun a => addr a < next) accounts ->
  Forall (fun a => addr a < S next) (accounts ++ [mkRef next k]).
Proof.
  intros Hold. apply Forall_app. split.
  - eapply Forall_impl; [|exact Hold]. cbn. intros; lia.
  - repeat constructor.
Qed.

(** The loop with the [break] keeps the accounts it had and appends the keys
    of the next nodes, one per node, until 21 are held. *)
Lemma collectAccounts_keys p nodes : forall next accounts,
  Forall (fun a => addr a < next) accounts ->
  List.length accounts <= 20 ->
  map (@deref PublicKey) (collectAccounts p nodes next accounts)
  = map (@deref PublicKey) accounts
    ++ map (nodeKey p) (firstn (21 - List.length accounts) nodes).
Proof.
  induction nodes as [|node rest IH]; intros next accounts Hold Hlen;
    cbn [collectAccounts].
  - rewrite firstn_nil. cbn. now rewrite app_nil_r.
  - rewrite (addEventAccount_appends_key p node Hold).
    rewrite length_app. cbn [List.length].
    destruct (Nat.ltb 20 (List.length accounts + 1)) eqn:Hfull.
    + apply Nat.ltb_lt in Hfull.
      replace (21 - List.length accounts) with 1 by lia.
      cbn. now rewrite map_app.
    + apply Nat.ltb_ge in Hfull.
      rewrite IH.
      * rewrite length_app. cbn [List.length].
        replace (21 - List.length accounts)
          with (S (21 - (List.length accounts + 1))) by lia.
        cbn [firstn map]. rewrite map_app, <- app_assoc. reflexivity.
      * now apply fresh_after_append.
      * rewrite length_app. cbn. lia.
Qed.

(** The loop without [break] appends the key of every node. *)
Lemma collectAllAccounts_keys p nodes : forall next accounts,
  Forall (fun a => addr a < next) accounts ->
  map (@deref PublicKey) (collectAllAccounts p nodes next accounts)
  = map (@deref PublicKey) accounts ++ map (nodeKey p) nodes.
Proof.
  induction nodes as [|node rest IH]; intros next accounts Hold;
    cbn [collectAllAccounts].
  - cbn. now rewrite app_nil_r.
  - rewrite (addEventAccount_appends_key p node Hold).
    rewrite IH by now apply fresh_after_append.
    rewrite map_app, <- app_assoc. reflexivity.
Qed.

Section CrankAccounts.
Context {ext : Externals}.

(** X1.  Called without an [individualEvent] on a fetched event heap,
    [crankMarketTransactions] cranks the events at the head of the heap: the
    remaining accounts hold, in heap order, the maker or owner of each of the
    first 21 nodes (of all nodes when there are fewer), and [limit] is that
    number.  No event is skipped, merged or moved. *)
Theorem crank_accounts_are_heap_prefix h market eventHeap wallet_pk ob prov
    heap blockhash :
  wallet_publicKey h = Some wallet_pk ->
  openbook h = Some ob ->
  provider h = Some prov ->
  account_eventHeap_fetch (Openbook.program ob) eventHeap = Resolved (Some heap) ->
  connection_getLatestBlockhash prov = Resolved blockhash ->
  exists accounts remaining,
    crankMarketTransactions h market eventHeap None
    = Resolved (Some
        [ {| payerKey := provider_wallet_publicKey prov;
             v0_instructions :=
               [Method OnOpenbook
                  (consumeEvents
                     (BN_new (number_of_nat (Nat.min 21 (List.length (nodes heap)))))
                     accounts remaining)];
             recentBlockhash := blockhash;
             addressLookupTableAccounts := None |} ])
    /\ map (fun m => deref (pubkey m)) remaining
       = map (nodeKey (Openbook.program ob)) (firstn 21 (nodes heap)).
Proof.
  intros Hw Hob Hp Hheap Hhash.
  assert (Hkeys :
    map (fun m => deref (pubkey m))
        (crankRemainingAccounts (Openbook.program ob) (Some heap) None)
    = map (nodeKey (Openbook.program ob)) (firstn 21 (nodes heap))).
  { unfold crankRemainingAccounts. rewrite map_map.
    rewrite (map_ext _ (@deref PublicKey) (fun a => eq_refl)).
    rewrite (collectAccounts_keys (Openbook.program ob) (nodes heap) (next := 0)
               (accounts := [])); [reflexivity | constructor | cbn; lia]. }
  eexists. eexists. split; [|exact Hkeys].
  rewrite (@crankMarketTransactions_resolved ext h market eventHeap None
             _ _ _ _ _ Hw Hob Hp Hheap Hhash).
  cbv zeta.
  apply (f_equal (@List.length _)) in Hkeys.
  rewrite !length_map, length_firstn in Hkeys. rewrite Hkeys. reflexivity.
Qed.

(** X2.  Called with an [individualEvent], [crankMarketTransactions] scans
    the whole heap with no limit: the remaining accounts hold, in heap order,
    the key of every node whose key has the string of [individualEvent], as
    many times as it occurs. *)
Theorem crank_individual_event_scans_whole_heap h market eventHeap ie
    wallet_pk ob prov heap blockhash :
  wallet_publicKey h = Some wallet_pk ->
  openbook h = Some ob ->
  provider h = Some prov ->
  account_eventHeap_fetch (Openbook.program ob) eventHeap = Resolved (Some heap) ->
  connection_getLatestBlockhash prov = Resolved blockhash ->
  exists accounts remaining,
    crankMarketTransactions h market eventHeap (Some ie)
    = Resolved (Some
        [ {| payerKey := provider_wallet_publicKey prov;
             v0_instructions :=
               [Method OnOpenbook
                  (consumeEvents
                     (BN_new (number_of_nat (List.length remaining)))
                     accounts remaining)];
             recentBlockhash := blockhash;
             addressLookupTableAccounts := None |} ])
    /\ map (fun m => deref (pubkey m)) remaining
       = filter (fun k => String.eqb (PublicKey_toString k) (PublicKey_toString ie))
                (map (nodeKey (Openbook.program ob)) (nodes heap)).
Proof.
  intros Hw Hob Hp Hheap Hhash.
  eexists. eexists. split.
  - rewrite (@crankMarketTransactions_resolved ext h market eventHeap (Some ie)
               _ _ _ _ _ Hw Hob Hp Hheap Hhash).
    cbv zeta. reflexivity.
  - unfold crankRemainingAccounts.
    rewrite (map_filter_comm (fun m => deref (pubkey m))
               (fun k => String.eqb (PublicKey_toString k) (PublicKey_toString ie))).
    rewrite map_map.
    rewrite (map_ext _ (@deref PublicKey) (fun a => eq_refl)).
    rewrite (collectAllAccounts_keys (Openbook.program ob) (nodes heap) (next := 0)
               (accounts := [])); [reflexivity | constructor].
Qed.

(** X3.  When the fetch of the event heap resolves to null the hook does not
    bail out: it still returns one transaction, a [consumeEvents] with limit
    0 and no remaining account, with or without an [individualEvent]. *)
Theorem crank_null_heap_builds_empty_crank h market eventHeap individualEvent
    wallet_pk ob prov blockhash :
  wallet_publicKey h = Some wallet_pk ->
  openbook h = Some ob ->
  provider h = Some prov ->
  account_eventHeap_fetch (Openbook.program ob) eventHeap = Resolved None ->
  connection_getLatestBlockhash prov = Resolved blockhash ->
  crankMarketTransactions h market eventHeap individualEvent
  = Resolved (Some
      [ {| payerKey := provider_wallet_publicKey prov;
           v0_instructions :=
             [Method OnOpenbook
                (consumeEvents (BN_new 0%float)
                   {| ConsumeEvents.consumeEventsAdmin := Openbook.programId ob;
                      ConsumeEvents.market := Market.publicKey market;
                      ConsumeEvents.eventHeap :=
                        Market.eventHeap (Market.account market) |}
                   [])];
           recentBlockhash := blockhash;
           addressLookupTableAccounts := None |} ]).
Proof.
  intros Hw Hob Hp Hheap Hhash.
  rewrite (@crankMarketTransactions_resolved ext h market eventHeap individualEvent
             _ _ _ _ _ Hw Hob Hp Hheap Hhash).
  destruct individualEvent; reflexivity.
Qed.

(** X4.  [crankMarketTransactions] catches nothing: when its guard passes
    and the fetch of the event heap rejects, or the fetch resolves and that
    of the latest blockhash rejects, the call rejects. *)
Theorem crank_rejects_when_a_fetch_rejects h market eventHeap individualEvent
    wallet_pk ob prov :
  wallet_publicKey h = Some wallet_pk ->
  openbook h = Some ob ->
  provider h = Some prov ->
  account_eventHeap_fetch (Openbook.program ob) eventHeap = Rejected
  \/ connection_getLatestBlockhash prov = Rejected ->
  crankMarketTransactions h market eventHeap individualEvent = Rejected.
Proof.
  intros Hw Hob Hp Hfail.
  unfold crankMarketTransactions, openbookTwap. rewrite Hw, Hob, Hp.
  destruct Hfail as [Hheap | Hhash].
  - rewrite Hheap. reflexivity.
  - destruct (account_eventHeap_fetch _ _); [|reflexivity].
    cbn [bind]. rewrite Hhash. reflexivity.
Qed.

(** X5.  The [eventHeap] argument of [crankMarketTransactions] is only the
    address that is fetched: two addresses whose fetch gives the same answer
    give the same result, and the [eventHeap] account of the instruction is
    the market's own. *)
Theorem crank_event_heap_argument_only_fetched h market eventHeap1 eventHeap2
    individualEvent ob :
  openbook h = Some ob ->
  account_eventHeap_fetch (Openbook.program ob) eventHeap1
    = account_eventHeap_fetch (Openbook.program ob) eventHeap2 ->
  crankMarketTransactions h market eventHeap1 individualEvent
    = crankMarketTransactions h market eventHeap2 individualEvent
  /\ forall txs tx on limit accounts remaining,
       crankMarketTransactions h market eventHeap1 individualEvent
         = Resolved (Some txs) ->
       In tx txs ->
       In (Method on (consumeEvents limit accounts remaining)) (v0_instructions tx) ->
       ConsumeEvents.eventHeap accounts = Market.eventHeap (Market.account market).
Proof.
  intros Hob Hsame. split.
  - unfold crankMarketTransactions. rewrite Hob, Hsame. reflexivity.
  - intros txs tx on limit accounts remaining.
    unfold crankMarketTransactions, openbookTwap. rewrite Hob.
    destruct (wallet_publicKey h); [|discriminate].
    destruct (provider h) as [prov|]; [|discriminate].
    destruct (account_eventHeap_fetch _ eventHeap1); [|discriminate]. cbn [bind].
    destruct (connection_getLatestBlockhash prov); [|discriminate].
    cbn. intros [= <-] [<-|[]]. cbn. intros [[= _ _ <- _]|[]]. reflexivity.
Qed.

End CrankAccounts.

Lemma crank_accounts_are_heap_prefix_witness :
  exists accounts remaining,
    crankMarketTransactions (ext := Example.externals)
      (Example.hooks Rejected (Resolved (Some Example.heap_busy)))
      Example.market (Example.key "event-heap") None
    = Resolved (Some
        [ {| payerKey := Example.wallet;
             v0_instructions :=
               [Method OnOpenbook (consumeEvents 21%Z accounts remaining)];
             recentBlockhash := "blockhash";
             addressLookupTableAccounts := None |} ])
    /\ map (fun m => deref (pubkey m)) remaining = map Example.bob (seq 0 21).
Proof.
  destruct (crank_accounts_are_heap_prefix (ext := Example.externals)
              (Example.hooks Rejected (Resolved (Some Example.heap_busy)))
              Example.market (Example.key "event-heap")
              (wallet_pk := Example.wallet) (heap := Example.heap_busy)
              eq_refl eq_refl eq_refl eq_refl eq_refl)
    as (accounts & remaining & Hrun & Hkeys).
  exists accounts, remaining. split.
  - rewrite Hrun. reflexivity.
  - rewrite Hkeys. vm_compute. reflexivity.
Defined.

Lemma crank_individual_event_scans_whole_heap_witness :
  exists accounts remaining,
    crankMarketTransactions (ext := Example.externals)
      (Example.hooks Rejected (Resolved (Some Scenario.heap_one_maker)))
      Example.market (Example.key "event-heap") (Some Example.alice)
    = Resolved (Some
        [ {| payerKey := Example.wallet;
             v0_instructions :=
               [Method OnOpenbook
                  (consumeEvents
                     (Example.Z_of_number (number_of_nat (List.length remaining)))
                     accounts remaining)];
             recentBlockhash := "blockhash";
             addressLookupTableAccounts := None |} ])
    /\ map (fun m => deref (pubkey m)) remaining = repeat Example.alice 25.
Proof.
  destruct (crank_individual_event_scans_whole_heap (ext := Example.externals)
              (Example.hooks Rejected (Resolved (Some Scenario.heap_one_maker)))
              Example.market (Example.key "event-heap") Example.alice
              (wallet_pk := Example.wallet) (heap := Scenario.heap_one_maker)
              eq_refl eq_refl eq_refl eq_refl eq_refl)
    as (accounts & remaining & Hrun & Hkeys).
  exists accounts, remaining. split.
  - exact Hrun.
  - rewrite Hkeys. vm_compute. reflexivity.
Defined.

Lemma crank_null_heap_builds_empty_crank_witness :
  crankMarketTransactions (ext := Example.externals)
    (Example.hooks Rejected (Resolved None))
    Example.market (Example.key "event-heap") None
  = Resolved (Some
      [ {| payerKey := Example.wallet;
           v0_instructions :=
             [Method OnOpenbook
                (consumeEvents 0%Z
                   {| ConsumeEvents.consumeEventsAdmin := Example.key "openbook";
                      ConsumeEvents.market := Example.key "market";
                      ConsumeEvents.eventHeap := Example.key "event-heap" |}
                   [])];
           recentBlockhash := "blockhash";
           addressLookupTableAccounts := None |} ]).
Proof.
  exact (crank_null_heap_builds_empty_crank (ext := Example.externals)
           (Example.hooks Rejected (Resolved None))
           Example.market (Example.key "event-heap") None
           (wallet_pk := Example.wallet) eq_refl eq_refl eq_refl eq_refl eq_refl).
Defined.

Lemma crank_rejects_when_a_fetch_rejects_witness :
  crankMarketTransactions (ext := Example.externals)
    (Example.hooks Rejected Rejected)
    Example.market (Example.key "event-heap") None = Rejected
  /\ crankMarketTransactions (ext := Example.externals)
       (Scenario.hooks_no_blockhash (Resolved (Some Example.heap_busy)))
       Example.market (Example.key "event-heap") None = Rejected.
Proof.
  split.
  - exact (crank_rejects_when_a_fetch_rejects (ext := Example.externals)
             (Example.hooks Rejected Rejected)
             Example.market (Example.key "event-heap") None
             (wallet_pk := Example.wallet) eq_refl eq_refl eq_refl
             (or_introl eq_refl)).
  - exact (crank_rejects_when_a_fetch_rejects (ext := Example.externals)
             (Scenario.hooks_no_blockhash (Resolved (Some Example.heap_busy)))
             Example.market (Example.key "event-heap") None
             (wallet_pk := Example.wallet) eq_refl eq_refl eq_refl
             (or_intror eq_refl)).
Defined.

Lemma crank_event_heap_argument_only_fetched_witness :
  crankMarketTransactions (ext := Example.externals)
    (Example.hooks Rejected (Resolved (Some Example.heap_busy)))
    Example.market (Example.key "event-heap") None
  = crankMarketTransactions (ext := Example.externals)
      (Example.hooks Rejected (Resolved (Some Example.heap_busy)))
      Example.market (Example.key "another-heap") None.
Proof.
  exact (proj1 (crank_event_heap_argument_only_fetched (ext := Example.externals)
                  (Example.hooks Rejected (Resolved (Some Example.heap_busy)))
                  Example.market (Example.key "event-heap")
                  (Example.key "another-heap") None eq_refl eq_refl)).
Defined.

(** ** crankMarket *)

Section CrankMarketProperties.
Context {ext : Externals}.

(** X6.  [crankMarket] submits what [crankMarketTransactions] builds and
    nothing else.  When the guard fails it resolves to [undefined] whatever
    the sender is; when a fetch rejects it rejects whatever the sender is;
    otherwise its outcome is that of [sender.send] on the single
    [consumeEvents] transaction. *)
Theorem crankMarket_sends_the_built_transaction (R : Type) h
    (sender : TransactionSender R) market eventHeap individualEvent :
  (wallet_publicKey h = None \/ openbook h = None \/ openbookTwap h = None ->
   crankMarket h sender market eventHeap individualEvent = Resolved None)
  /\ (forall wallet_pk ob prov,
      wallet_publicKey h = Some wallet_pk ->
      openbook h = Some ob ->
      provider h = Some prov ->
      account_eventHeap_fetch (Openbook.program ob) eventHeap = Rejected
      \/ connection_getLatestBlockhash prov = Rejected ->
      crankMarket h sender market eventHeap individualEvent = Rejected)
  /\ (forall wallet_pk ob prov heap blockhash,
      wallet_publicKey h = Some wallet_pk ->
      openbook h = Some ob ->
      provider h = Some prov ->
      account_eventHeap_fetch (Openbook.program ob) eventHeap = Resolved heap ->
      connection_getLatestBlockhash prov = Resolved blockhash ->
      exists limit accounts remaining,
        crankMarket h sender market eventHeap individualEvent
        = (r <- send sender
                  [ {| payerKey := provider_wallet_publicKey prov;
                       v0_instructions :=
                         [Method OnOpenbook
                            (consumeEvents limit accounts remaining)];
                       recentBlockhash := blockhash;
                       addressLookupTableAccounts := None |} ] ;;
           ret (Some r))).
Proof.
  split; [|split].
  - intros Hguard. unfold crankMarket, crankMarketTransactions.
    destruct (wallet_publicKey h), (openbook h), (openbookTwap h);
      try reflexivity.
    destruct Hguard as [Hw | [Hob | Htwap]]; discriminate.
  - intros wallet_pk ob prov Hw Hob Hp Hfail.
    unfold crankMarket, crankMarketTransactions, openbookTwap.
    rewrite Hw, Hob, Hp.
    destruct Hfail as [Hheap | Hhash].
    + rewrite Hheap. reflexivity.
    + destruct (account_eventHeap_fetch _ _); [|reflexivity].
      cbn [bind]. rewrite Hhash. reflexivity.
  - intros wallet_pk ob prov heap blockhash Hw Hob Hp Hheap Hhash.
    unfold crankMarket.
    rewrite (@crankMarketTransactions_resolved ext h market eventHeap individualEvent
               _ _ _ _ _ Hw Hob Hp Hheap Hhash).
    cbv zeta. cbn [bind]. do 3 eexists. reflexivity.
Qed.

End CrankMarketProperties.

Lemma crankMarket_sends_the_built_transaction_witness :
  crankMarket (ext := Example.externals)
    (Example.hooks Rejected (Resolved (Some Example.heap_busy)))
    Scenario.counting_sender Example.market (Example.key "event-heap") None
  = Resolved (Some 1)
  /\ crankMarket (ext := Example.externals) Example.hooks_no_wallet
       Scenario.counting_sender Example.market (Example.key "event-heap") None
     = Resolved None.
Proof.
  destruct (crankMarket_sends_the_built_transaction (ext := Example.externals)
              (Example.hooks Rejected (Resolved (Some Example.heap_busy)))
              Scenario.counting_sender Example.market (Example.key "event-heap") None)
    as (_ & _ & Hsend).
  destruct (Hsend Example.wallet _ _ _ _ eq_refl eq_refl eq_refl eq_refl eq_refl)
    as (limit & accounts & remaining & Hrun).
  split.
  - rewrite Hrun. reflexivity.
  - apply (crankMarket_sends_the_built_transaction (ext := Example.externals)
             Example.hooks_no_wallet Scenario.counting_sender Example.market
             (Example.key "event-heap") None).
    left. reflexivity.
Defined.

(** ** placeOrderTransactions: failures and ignored inputs *)

Lemma openOrdersIndex_falsy_offset `{Externals} ob wallet_pk idx v openTx :
  truthy v = false ->
  openOrdersIndex ob wallet_pk idx (Some v) openTx
  = openOrdersIndex ob wallet_pk idx None openTx.
Proof.
  intros Hv. unfold openOrdersIndex. cbn [truthy_opt or_zero]. rewrite Hv.
  reflexivity.
Qed.

Lemma placeOrderArgs_market_price `{Externals} amount price1 price2 limitOrder ask
    accountIndex :
  limitOrder <> Some true ->
  safe_for_BN (Math_floor (price1 / QUOTE_LOTS)%float) = true ->
  safe_for_BN (Math_floor (price2 / QUOTE_LOTS)%float) = true ->
  placeOrderArgs amount price1 limitOrder ask accountIndex
  = placeOrderArgs amount price2 limitOrder ask accountIndex.
Proof.
  intros Hmarket Hsafe1 Hsafe2. unfold placeOrderArgs, new_BN.
  rewrite Hsafe1, Hsafe2, (flag_false Hmarket). cbn [negb bind].
  destruct (safe_for_BN (Math_floor amount)); [|reflexivity]. cbn [bind].
  destruct (flag ask); reflexivity.
Qed.

Section PlaceOrderProperties.
Context {ext : Externals} {tc : TwosComplement}.

(** X7.  [placeOrderTransactions] recovers from nothing but the indexer
    fetch.  With the guard passed the call rejects when the fetch has failed,
    [indexOffset] is absent or falsy and the instruction creating the indexer
    cannot be built; when [createOpenOrdersInstruction] rejects; and when
    [createOpenOrdersInstruction] returns no instruction ([openTx.add()]
    throws). *)
Theorem placeOrder_rejects_when_a_helper_fails h amount price market limitOrder
    ask pass indexOffset wallet_pk ob prov :
  wallet_publicKey h = Some wallet_pk ->
  openbook h = Some ob ->
  provider h = Some prov ->
  let idx := findOpenOrdersIndexer wallet_pk in
  let create accountIndex :=
    createOpenOrdersInstruction (Openbook.program ob) (Market.publicKey market)
      accountIndex (shortKey wallet_pk ++ "-" ++ BN_toString accountIndex)
      wallet_pk idx in
  let run :=
    placeOrderTransactions h amount price market limitOrder ask pass indexOffset in
  (account_openOrdersIndexer_fetch (Openbook.program ob) idx = Rejected ->
   truthy_opt indexOffset = false ->
   createOpenOrdersIndexerInstruction (Openbook.program ob) idx wallet_pk = Rejected ->
   run = Rejected)
  /\ (forall accountIndex openTx,
      openOrdersIndex ob wallet_pk idx indexOffset {| instructions := [] |}
        = Resolved (accountIndex, openTx) ->
      create accountIndex = Rejected ->
      run = Rejected)
  /\ (forall accountIndex openTx openOrdersAccount,
      openOrdersIndex ob wallet_pk idx indexOffset {| instructions := [] |}
        = Resolved (accountIndex, openTx) ->
      create accountIndex = Resolved ([], openOrdersAccount) ->
      run = Rejected).
Proof.
  intros Hw Hob Hp idx create run. subst idx create run. cbv zeta.
  unfold placeOrderTransactions, openbookTwap. rewrite Hw, Hob, Hp.
  split; [|split].
  - intros Hfetch Hoff Hix. unfold openOrdersIndex, try_catch.
    change (new_BN 1%float) with (Resolved (BN_new 1%float)). cbn [bind].
    rewrite Hfetch, Hoff, Hix. reflexivity.
  - intros accountIndex openTx Hidx Hcreate.
    rewrite Hidx. cbn [bind]. rewrite Hcreate. reflexivity.
  - intros accountIndex openTx ooa Hidx Hcreate.
    rewrite Hidx. cbn [bind]. rewrite Hcreate. reflexivity.
Qed.

(** X8.  An [indexOffset] of 0, -0 or NaN is the same as no [indexOffset]:
    the call has the same outcome, whether or not the indexer fetch succeeds. *)
Theorem placeOrder_falsy_offset_is_no_offset h amount price market limitOrder
    ask pass v :
  truthy v = false ->
  placeOrderTransactions h amount price market limitOrder ask pass (Some v)
  = placeOrderTransactions h amount price market limitOrder ask pass None.
Proof.
  intros Hv. unfold placeOrderTransactions.
  destruct (wallet_publicKey h) as [wallet_pk|]; [|reflexivity].
  destruct (openbook h) as [ob|]; [|reflexivity].
  destruct (openbookTwap h); [|reflexivity].
  rewrite openOrdersIndex_falsy_offset by exact Hv. reflexivity.
Qed.

(** X9.  [placeOrderTransactions] never looks at [pass].  For a market order
    ([limitOrder] absent or false) the price counts only through the range
    check of [new BN], which line 91 runs before the branch on the order
    type: two prices whose [floor(price / QUOTE_LOTS)] is in range give the
    same outcome, and a price for which it is out of range (2^53 and more)
    makes the call reject whenever the guard passes, for a market order as
    for a limit order. *)
Theorem placeOrder_ignored_inputs h amount price1 price2 market
    limitOrder ask pass1 pass2 indexOffset :
  placeOrderTransactions h amount price1 market limitOrder ask pass1 indexOffset
  = placeOrderTransactions h amount price1 market limitOrder ask pass2 indexOffset
  /\ (limitOrder <> Some true ->
      safe_for_BN (Math_floor (price1 / QUOTE_LOTS)%float) = true ->
      safe_for_BN (Math_floor (price2 / QUOTE_LOTS)%float) = true ->
      placeOrderTransactions h amount price1 market limitOrder ask pass1 indexOffset
      = placeOrderTransactions h amount price2 market limitOrder ask pass2
          indexOffset)
  /\ (forall wallet_pk ob prov,
      wallet_publicKey h = Some wallet_pk ->
      openbook h = Some ob ->
      provider h = Some prov ->
      safe_for_BN (Math_floor (price1 / QUOTE_LOTS)%float) = false ->
      placeOrderTransactions h amount price1 market limitOrder ask pass1 indexOffset
      = Rejected).
Proof.
  split; [reflexivity|]. split.
  - intros Hmarket Hsafe1 Hsafe2. unfold placeOrderTransactions.
    destruct (wallet_publicKey h) as [wallet_pk|]; [|reflexivity].
    destruct (openbook h) as [ob|]; [|reflexivity].
    destruct (openbookTwap h); [|reflexivity].
    destruct (openOrdersIndex _ _ _ _ _) as [[accountIndex openTx]|]; [|reflexivity].
    cbn [bind].
    destruct (createOpenOrdersInstruction _ _ _ _ _ _) as [[ixs ooa]|];
      [|reflexivity].
    cbn [bind].
    destruct (Transaction_add openTx (map Raw ixs)); [|reflexivity].
    cbn [bind].
    rewrite (@placeOrderArgs_market_price ext amount price1 price2 limitOrder ask
               accountIndex Hmarket Hsafe1 Hsafe2).
    reflexivity.
  - intros wallet_pk ob prov Hw Hob Hp Hunsafe.
    unfold placeOrderTransactions, openbookTwap. rewrite Hw, Hob, Hp.
    destruct (openOrdersIndex _ _ _ _ _) as [[accountIndex openTx]|]; [|reflexivity].
    cbn [bind].
    destruct (createOpenOrdersInstruction _ _ _ _ _ _) as [[ixs ooa]|];
      [|reflexivity].
    cbn [bind].
    destruct (Transaction_add openTx (map Raw ixs)); [|reflexivity].
    cbn [bind].
    rewrite (@placeOrderArgs_unsafe ext amount price1 limitOrder ask accountIndex
               (or_introl Hunsafe)).
    reflexivity.
Qed.

(** X10.  Whenever the call returns its transaction, in the [placeOrder]
    arguments the side is [Ask] exactly when [ask] is true and [Bid]
    otherwise, the order type is [Limit] exactly when [limitOrder] is true
    and [Market] otherwise, and the self-trade behaviour is always
    [AbortTransaction]. *)
Theorem placeOrder_side_and_order_type h amount price market limitOrder ask pass
    indexOffset wallet_pk ob prov accountIndex openTx ixs openOrdersAccount
    args data :
  wallet_publicKey h = Some wallet_pk ->
  openbook h = Some ob ->
  provider h = Some prov ->
  openOrdersIndex ob wallet_pk (findOpenOrdersIndexer wallet_pk) indexOffset
    {| instructions := [] |} = Resolved (accountIndex, openTx) ->
  createOpenOrdersInstruction (Openbook.program ob) (Market.publicKey market)
    accountIndex (shortKey wallet_pk ++ "-" ++ BN_toString accountIndex)
    wallet_pk (findOpenOrdersIndexer wallet_pk) = Resolved (ixs, openOrdersAccount) ->
  ixs <> [] ->
  placeOrderArgs amount price limitOrder ask accountIndex = Resolved args ->
  encodePlaceOrderArgs args = Resolved data ->
  exists pre accounts,
    placeOrderTransactions h amount price market limitOrder ask pass indexOffset
    = Resolved (Some
        [ {| instructions :=
               map Raw pre ++ [Method OnOpenbookTwap (placeOrder data accounts)] |} ])
    /\ (ask = Some true -> side data = Side.Ask)
    /\ (ask <> Some true -> side data = Side.Bid)
    /\ (limitOrder = Some true -> orderType data = OrderType.Limit)
    /\ (limitOrder <> Some true -> orderType data = OrderType.Market)
    /\ selfTradeBehavior data = SelfTradeBehavior.AbortTransaction.
Proof.
  intros Hw Hob Hp Hidx Hcreate Hne Hargs Hdata.
  destruct (openOrdersIndex_raw _ _ _ _ Hidx) as (pre0 & Hpre & _).
  exists (pre0 ++ ixs). eexists. split.
  - rewrite (@placeOrderTransactions_resolved ext tc h amount price market limitOrder
               ask pass indexOffset _ _ _ _ _ _ _ _ _
               Hw Hob Hp Hidx Hcreate Hne Hargs Hdata).
    rewrite Hpre, <- map_app. reflexivity.
  - destruct (placeOrderArgs_fields _ _ _ _ _ Hargs)
      as (_ & _ & _ & _ & _ & _ & _ & Hside & Htype & Hself).
    destruct (encodePlaceOrderArgs_fields _ Hdata)
      as (_ & _ & _ & _ & _ & Eside & Etype & Eself & _).
    rewrite Eside, Etype, Eself, Hside, Htype, Hself.
    split; [|split; [|split; [|split]]].
    + intros Hask. now rewrite (flag_true Hask).
    + intros Hask. now rewrite (flag_false Hask).
    + intros Hlimit. now rewrite (flag_true Hlimit).
    + intros Hlimit. now rewrite (flag_false Hlimit).
    + reflexivity.
Qed.

End PlaceOrderProperties.

Lemma placeOrder_rejects_when_a_helper_fails_witness :
  placeOrderTransactions (ext := Scenario.externals_offline) (tc := Scenario.twos)
    (Example.hooks Rejected Rejected) 2.5%float 0.5%float
    Example.market (Some true) (Some true) None None = Rejected
  /\ placeOrderTransactions (ext := Scenario.externals_offline) (tc := Scenario.twos)
       (Example.hooks Example.fresh_indexer Rejected) 2.5%float 0.5%float
       Example.market (Some true) (Some true) None None = Rejected.
Proof.
  split.
  - apply (proj1
      (placeOrder_rejects_when_a_helper_fails
         (ext := Scenario.externals_offline) (tc := Scenario.twos)
         (Example.hooks Rejected Rejected) 2.5%float 0.5%float
         Example.market (Some true) (Some true) None None
         (wallet_pk := Example.wallet) eq_refl eq_refl eq_refl));
      reflexivity.
  - apply (proj1 (proj2
      (placeOrder_rejects_when_a_helper_fails
         (ext := Scenario.externals_offline) (tc := Scenario.twos)
         (Example.hooks Example.fresh_indexer Rejected) 2.5%float 0.5%float
         Example.market (Some true) (Some true) None None
         (wallet_pk := Example.wallet) eq_refl eq_refl eq_refl))
      1%Z {| instructions := [] |});
      reflexivity.
Defined.

Lemma placeOrder_falsy_offset_is_no_offset_witness :
  placeOrderTransactions (ext := Example.externals) (tc := Scenario.twos)
    (Example.hooks Rejected Rejected) 2.5%float 0.5%float
    Example.market (Some true) (Some true) None (Some 0%float)
  = placeOrderTransactions (ext := Example.externals) (tc := Scenario.twos)
      (Example.hooks Rejected Rejected) 2.5%float 0.5%float
      Example.market (Some true) (Some true) None None
  /\ placeOrderTransactions (ext := Example.externals) (tc := Scenario.twos)
       (Example.hooks Example.fresh_indexer Rejected) 2.5%float 0.5%float
       Example.market (Some true) (Some true) None (Some nan)
     = placeOrderTransactions (ext := Example.externals) (tc := Scenario.twos)
         (Example.hooks Example.fresh_indexer Rejected) 2.5%float 0.5%float
         Example.market (Some true) (Some true) None None.
Proof.
  split.
  - apply (placeOrder_falsy_offset_is_no_offset
             (ext := Example.externals) (tc := Scenario.twos)).
    reflexivity.
  - apply (placeOrder_falsy_offset_is_no_offset
             (ext := Example.externals) (tc := Scenario.twos)).
    reflexivity.
Defined.

Lemma placeOrder_ignored_inputs_witness :
  placeOrderTransactions (ext := Example.externals) (tc := Scenario.twos)
    (Example.hooks Example.fresh_indexer Rejected) 2.5%float 0.5%float
    Example.market None (Some true) (Some true) None
  = placeOrderTransactions (ext := Example.externals) (tc := Scenario.twos)
      (Example.hooks Example.fresh_indexer Rejected) 2.5%float 7%float
      Example.market None (Some true) (Some false) None
  /\ placeOrderTransactions (ext := Example.externals) (tc := Scenario.twos)
       (Example.hooks Example.fresh_indexer Rejected) 2.5%float
       10000000000000%float Example.market None (Some true) (Some true) None
     = Rejected.
Proof.
  split.
  - apply (placeOrder_ignored_inputs
             (ext := Example.externals) (tc := Scenario.twos));
      [discriminate | reflexivity | reflexivity].
  - apply (proj2 (proj2 (placeOrder_ignored_inputs
                           (ext := Example.externals) (tc := Scenario.twos)
                           (Example.hooks Example.fresh_indexer Rejected)
                           2.5%float 10000000000000%float 0%float
                           Example.market None (Some true) (Some true) None None))
             Example.wallet _ _ eq_refl eq_refl eq_refl).
    reflexivity.
Defined.

Lemma placeOrder_side_and_order_type_witness :
  exists pre data accounts,
    placeOrderTransactions (ext := Example.externals) (tc := Scenario.twos)
      (Example.hooks Example.fresh_indexer Rejected) 2.5%float 0.5%float
      Example.market None (Some true) None None
    = Resolved (Some
        [ {| instructions :=
               map Raw pre ++ [Method OnOpenbookTwap (placeOrder data accounts)] |} ])
    /\ side data = Side.Ask
    /\ orderType data = OrderType.Market.
Proof.
  destruct (placeOrder_side_and_order_type
              (ext := Example.externals) (tc := Scenario.twos)
              (Example.hooks Example.fresh_indexer Rejected) 2.5%float 0.5%float
              Example.market None (Some true) None None
              (wallet_pk := Example.wallet)
              (accountIndex := 1%Z) (openTx := {| instructions := [] |})
              (ixs := [Example.openOrdersInstruction "wall-1"])
              eq_refl eq_refl eq_refl eq_refl eq_refl ltac:(discriminate)
              eq_refl eq_refl)
    as (pre & accounts & Hrun & Hask & _ & _ & Hmarket & _).
  exists pre. eexists. exists accounts. split; [exact Hrun|]. split.
  - apply Hask. reflexivity.
  - apply Hmarket. discriminate.
Defined.

(** ** How the builders fit together *)

Section AcrossBuilders.
Context {ext : Externals} {tc : TwosComplement}.

(** X11.  An order placed on a market and a cancellation on the same market
    name the same book: whenever the order's transaction is returned, its
    [placeOrder] instruction and the [cancelOrderByClientId] instruction
    agree on [asks], [bids], [market], [twapMarket] and [openbookProgram]. *)
Theorem place_and_cancel_name_the_same_book h amount price market limitOrder ask
    pass indexOffset orderId wallet_pk ob prov accountIndex openTx ixs
    openOrdersAccount args data :
  wallet_publicKey h = Some wallet_pk ->
  openbook h = Some ob ->
  provider h = Some prov ->
  openOrdersIndex ob wallet_pk (findOpenOrdersIndexer wallet_pk) indexOffset
    {| instructions := [] |} = Resolved (accountIndex, openTx) ->
  createOpenOrdersInstruction (Openbook.program ob) (Market.publicKey market)
    accountIndex (shortKey wallet_pk ++ "-" ++ BN_toString accountIndex)
    wallet_pk (findOpenOrdersIndexer wallet_pk) = Resolved (ixs, openOrdersAccount) ->
  ixs <> [] ->
  placeOrderArgs amount price limitOrder ask accountIndex = Resolved args ->
  encodePlaceOrderArgs args = Resolved data ->
  exists pre placed cancelled,
    placeOrderTransactions h amount price market limitOrder ask pass indexOffset
    = Resolved (Some
        [ {| instructions :=
               map Raw pre ++ [Method OnOpenbookTwap (placeOrder data placed)] |} ])
    /\ cancelOrderTransactions h orderId market
       = Resolved (Some
           [ {| instructions :=
                  [Method OnOpenbookTwap
                     (cancelOrderByClientId orderId cancelled)] |} ])
    /\ PlaceOrder.asks placed = CancelOrderByClientId.asks cancelled
    /\ PlaceOrder.bids placed = CancelOrderByClientId.bids cancelled
    /\ PlaceOrder.market placed = CancelOrderByClientId.market cancelled
    /\ PlaceOrder.twapMarket placed = CancelOrderByClientId.twapMarket cancelled
    /\ PlaceOrder.openbookProgram placed
       = CancelOrderByClientId.openbookProgram cancelled.
Proof.
  intros Hw Hob Hp Hidx Hcreate Hne Hargs Hdata.
  destruct (openOrdersIndex_raw _ _ _ _ Hidx) as (pre0 & Hpre & _).
  exists (pre0 ++ ixs). eexists. eexists. split; [|split].
  - rewrite (@placeOrderTransactions_resolved ext tc h amount price market limitOrder
               ask pass indexOffset _ _ _ _ _ _ _ _ _
               Hw Hob Hp Hidx Hcreate Hne Hargs Hdata).
    rewrite Hpre, <- map_app. reflexivity.
  - unfold cancelOrderTransactions, openbookTwap. rewrite Hw, Hob, Hp. reflexivity.
  - cbn. repeat split.
Qed.

(** X12.  Cancelling, settling and closing one order of one wallet address
    the same open-orders account, the one [findOpenOrders] derives from the
    order id and the wallet key.  The close instruction moreover names the
    wallet as owner and as destination of the rent, and the indexer that
    [findOpenOrdersIndexer] derives from the wallet key. *)
Theorem cancel_settle_close_share_open_orders_account h orderId passMarket
    proposal market wallet_pk ob prov quoteVault baseVault :
  wallet_publicKey h = Some wallet_pk ->
  openbook h = Some ob ->
  provider h = Some prov ->
  getVaultMint h (Proposal.quoteVault (Proposal.account proposal))
    = Resolved quoteVault ->
  getVaultMint h (Proposal.baseVault (Proposal.account proposal))
    = Resolved baseVault ->
  exists cancelled settled closed,
    cancelOrderTransactions h orderId market
    = Resolved (Some
        [ {| instructions :=
               [Method OnOpenbookTwap (cancelOrderByClientId orderId cancelled)] |} ])
    /\ settleFundsTransactions h orderId passMarket proposal market
       = Resolved (Some
           [ {| instructions := [Method OnOpenbook (settleFunds settled)] |} ])
    /\ closeOpenOrdersAccountTransactions h orderId
       = Resolved (Some
           [ {| instructions := [Method OnOpenbook (closeOpenOrdersAccount closed)] |} ])
    /\ CancelOrderByClientId.openOrdersAccount cancelled
       = findOpenOrders orderId wallet_pk
    /\ SettleFunds.openOrdersAccount settled = findOpenOrders orderId wallet_pk
    /\ CloseOpenOrdersAccount.openOrdersAccount closed
       = findOpenOrders orderId wallet_pk
    /\ CloseOpenOrdersAccount.owner closed = wallet_pk
    /\ CloseOpenOrdersAccount.solDestination closed = wallet_pk
    /\ CloseOpenOrdersAccount.openOrdersIndexer closed
       = findOpenOrdersIndexer wallet_pk.
Proof.
  intros Hw Hob Hp Hq Hb.
  unfold cancelOrderTransactions, settleFundsTransactions,
    closeOpenOrdersAccountTransactions, openbookTwap.
  rewrite Hw, Hob, Hp, Hq, Hb. cbn [bind].
  destruct passMarket; cbn; do 3 eexists; repeat split.
Qed.

(** X13.  The provider is needed to place, cancel and crank, not to settle
    or close: with a wallet and the order-book client but no provider, the
    first three resolve to [undefined], closing still builds its transaction
    and so does settling once the vaults are fetched. *)
Theorem settle_and_close_need_no_provider h wallet_pk ob :
  wallet_publicKey h = Some wallet_pk ->
  openbook h = Some ob ->
  provider h = None ->
  (forall amount price market limitOrder ask pass indexOffset,
      placeOrderTransactions h amount price market limitOrder ask pass indexOffset
      = Resolved None)
  /\ (forall orderId market,
      cancelOrderTransactions h orderId market = Resolved None)
  /\ (forall market eventHeap individualEvent,
      crankMarketTransactions h market eventHeap individualEvent = Resolved None)
  /\ (forall orderId,
      exists closed,
        closeOpenOrdersAccountTransactions h orderId
        = Resolved (Some
            [ {| instructions :=
                   [Method OnOpenbook (closeOpenOrdersAccount closed)] |} ]))
  /\ (forall orderId passMarket proposal market quoteVault baseVault,
      getVaultMint h (Proposal.quoteVault (Proposal.account proposal))
        = Resolved quoteVault ->
      getVaultMint h (Proposal.baseVault (Proposal.account proposal))
        = Resolved baseVault ->
      exists settled,
        settleFundsTransactions h orderId passMarket proposal market
        = Resolved (Some
            [ {| instructions := [Method OnOpenbook (settleFunds settled)] |} ])).
Proof.
  intros Hw Hob Hp.
  unfold placeOrderTransactions, cancelOrderTransactions, crankMarketTransactions,
    closeOpenOrdersAccountTransactions, settleFundsTransactions, openbookTwap.
  rewrite Hw, Hob, Hp.
  repeat split; try reflexivity.
  - intros orderId. eexists. reflexivity.
  - intros orderId passMarket proposal market quoteVault baseVault Hq Hb.
    rewrite Hq, Hb. cbn [bind]. destruct passMarket; eexists; reflexivity.
Qed.

(** X18.  The order is placed on the account the same transaction opens:
    whenever the transaction is returned, the instructions that
    [createOpenOrdersInstruction] returned for the account index come before
    the [placeOrder] instruction, which is last and names the open-orders
    account returned with them; the arguments carry that account index as
    [clientOrderId] (unchanged in the instruction when it is below 2^64), and
    the [eventHeap] is the market's. *)
Theorem placeOrder_uses_the_account_it_opens h amount price market limitOrder ask
    pass indexOffset wallet_pk ob prov accountIndex openTx ixs openOrdersAccount
    args data :
  wallet_publicKey h = Some wallet_pk ->
  openbook h = Some ob ->
  provider h = Some prov ->
  openOrdersIndex ob wallet_pk (findOpenOrdersIndexer wallet_pk) indexOffset
    {| instructions := [] |} = Resolved (accountIndex, openTx) ->
  createOpenOrdersInstruction (Openbook.program ob) (Market.publicKey market)
    accountIndex (shortKey wallet_pk ++ "-" ++ BN_toString accountIndex)
    wallet_pk (findOpenOrdersIndexer wallet_pk) = Resolved (ixs, openOrdersAccount) ->
  ixs <> [] ->
  placeOrderArgs amount price limitOrder ask accountIndex = Resolved args ->
  encodePlaceOrderArgs args = Resolved data ->
  exists pre accounts,
    placeOrderTransactions h amount price market limitOrder ask pass indexOffset
    = Resolved (Some
        [ {| instructions :=
               map Raw pre ++ map Raw ixs
               ++ [Method OnOpenbookTwap (placeOrder data accounts)] |} ])
    /\ List.length pre <= 1
    /\ PlaceOrder.openOrdersAccount accounts = openOrdersAccount
    /\ clientOrderId args = accountIndex
    /\ ((0 <= accountIndex < 2 ^ 64)%Z -> clientOrderId data = accountIndex)
    /\ PlaceOrder.eventHeap accounts = Market.eventHeap (Market.account market).
Proof.
  intros Hw Hob Hp Hidx Hcreate Hne Hargs Hdata.
  destruct (openOrdersIndex_raw _ _ _ _ Hidx) as (pre & Hpre & Hlen).
  destruct (placeOrderArgs_fields _ _ _ _ _ Hargs)
    as (_ & _ & _ & _ & Hid & _).
  destruct (encodePlaceOrderArgs_fields _ Hdata) as (_ & _ & _ & Ec & _).
  exists pre. eexists. split; [|split; [exact Hlen|]].
  - rewrite (@placeOrderTransactions_resolved ext tc h amount price market limitOrder
               ask pass indexOffset _ _ _ _ _ _ _ _ _
               Hw Hob Hp Hidx Hcreate Hne Hargs Hdata).
    rewrite Hpre, <- app_assoc. reflexivity.
  - cbn. split; [reflexivity|]. split; [exact Hid|]. split; [|reflexivity].
    intros Hr. rewrite Hid in Ec. rewrite (borsh_u64_fits Hr) in Ec. congruence.
Qed.

End AcrossBuilders.

Lemma place_and_cancel_name_the_same_book_witness :
  exists pre data placed cancelled,
    placeOrderTransactions (ext := Example.externals) (tc := Scenario.twos)
      (Example.hooks Example.fresh_indexer Rejected) 2.5%float 0.5%float
      Example.market (Some true) (Some true) None None
    = Resolved (Some
        [ {| instructions :=
               map Raw pre ++ [Method OnOpenbookTwap (placeOrder data placed)] |} ])
    /\ cancelOrderTransactions (ext := Example.externals)
         (Example.hooks Example.fresh_indexer Rejected) 1%Z Example.market
       = Resolved (Some
           [ {| instructions :=
                  [Method OnOpenbookTwap (cancelOrderByClientId 1%Z cancelled)] |} ])
    /\ PlaceOrder.twapMarket placed = CancelOrderByClientId.twapMarket cancelled.
Proof.
  destruct (place_and_cancel_name_the_same_book
              (ext := Example.externals) (tc := Scenario.twos)
              (Example.hooks Example.fresh_indexer Rejected) 2.5%float 0.5%float
              Example.market (Some true) (Some true) None None 1%Z
              (wallet_pk := Example.wallet)
              (accountIndex := 1%Z) (openTx := {| instructions := [] |})
              (ixs := [Example.openOrdersInstruction "wall-1"])
              eq_refl eq_refl eq_refl eq_refl eq_refl ltac:(discriminate)
              eq_refl eq_refl)
    as (pre & placed & cancelled & Hplace & Hcancel & _ & _ & _ & Htwap & _).
  exists pre. eexists. exists placed, cancelled. repeat split; eassumption.
Defined.

Lemma cancel_settle_close_share_open_orders_account_witness :
  exists cancelled settled closed,
    cancelOrderTransactions (ext := Example.externals)
      (Example.hooks Rejected Rejected) 7%Z Example.market
    = Resolved (Some
        [ {| instructions :=
               [Method OnOpenbookTwap (cancelOrderByClientId 7%Z cancelled)] |} ])
    /\ settleFundsTransactions (ext := Example.externals)
         (Example.hooks Rejected Rejected) 7%Z false
         (Example.proposal 4%float) Example.market
       = Resolved (Some
           [ {| instructions := [Method OnOpenbook (settleFunds settled)] |} ])
    /\ closeOpenOrdersAccountTransactions (ext := Example.externals)
         (Example.hooks Rejected Rejected) 7%Z
       = Resolved (Some
           [ {| instructions :=
                  [Method OnOpenbook (closeOpenOrdersAccount closed)] |} ])
    /\ CancelOrderByClientId.openOrdersAccount cancelled = Example.key "oo:wallet#7"
    /\ SettleFunds.openOrdersAccount settled = Example.key "oo:wallet#7"
    /\ CloseOpenOrdersAccount.openOrdersAccount closed = Example.key "oo:wallet#7".
Proof.
  destruct (cancel_settle_close_share_open_orders_account (ext := Example.externals)
              (Example.hooks Rejected Rejected) 7%Z false
              (Example.proposal 4%float) Example.market
              (wallet_pk := Example.wallet)
              eq_refl eq_refl eq_refl eq_refl eq_refl)
    as (cancelled & settled & closed & Hc & Hs & Hcl & H1 & H2 & H3 & _).
  exists cancelled, settled, closed.
  rewrite H1, H2, H3. repeat split; assumption.
Defined.

Lemma settle_and_close_need_no_provider_witness :
  cancelOrderTransactions (ext := Example.externals)
    Scenario.hooks_no_provider 7%Z Example.market = Resolved None
  /\ exists closed,
       closeOpenOrdersAccountTransactions (ext := Example.externals)
         Scenario.hooks_no_provider 7%Z
       = Resolved (Some
           [ {| instructions :=
                  [Method OnOpenbook (closeOpenOrdersAccount closed)] |} ]).
Proof.
  destruct (settle_and_close_need_no_provider
              (ext := Example.externals) (tc := Scenario.twos)
              Scenario.hooks_no_provider (wallet_pk := Example.wallet)
              eq_refl eq_refl eq_refl)
    as (_ & Hcancel & _ & Hclose & _).
  split; [apply Hcancel | apply Hclose].
Defined.

Lemma placeOrder_uses_the_account_it_opens_witness :
  exists pre data accounts,
    placeOrderTransactions (ext := Example.externals) (tc := Scenario.twos)
      (Example.hooks Rejected Rejected) 2.5%float 0.5%float
      Example.market (Some true) (Some true) None None
    = Resolved (Some
        [ {| instructions :=
               map Raw pre
               ++ [Raw (Example.openOrdersInstruction "wall-1")]
               ++ [Method OnOpenbookTwap (placeOrder data accounts)] |} ])
    /\ List.length pre <= 1
    /\ PlaceOrder.openOrdersAccount accounts = Example.key "oo:wallet#1"
    /\ clientOrderId data = 1%Z.
Proof.
  destruct (placeOrder_uses_the_account_it_opens
              (ext := Example.externals) (tc := Scenario.twos)
              (Example.hooks Rejected Rejected) 2.5%float 0.5%float
              Example.market (Some true) (Some true) None None
              (wallet_pk := Example.wallet)
              (accountIndex := 1%Z)
              (openTx := {| instructions :=
                   [Raw (Example.openOrdersInstruction "createOpenOrdersIndexer")] |})
              (ixs := [Example.openOrdersInstruction "wall-1"])
              eq_refl eq_refl eq_refl eq_refl eq_refl ltac:(discriminate)
              eq_refl eq_refl)
    as (pre & accounts & Hrun & Hlen & Hooa & _ & Hid & _).
  exists pre. eexists. exists accounts.
  split; [exact Hrun|]. split; [exact Hlen|]. split; [exact Hooa|].
  apply Hid. split; [discriminate | reflexivity].
Defined.

(** ** settleFundsTransactions: failures and the other accounts *)

Section SettleFundsProperties.
Context {ext : Externals}.

(** X14.  [settleFundsTransactions] fetches the quote vault and then the
    base vault and catches nothing: it rejects when the first fetch rejects,
    and when the first resolves and the second rejects. *)
Theorem settleFunds_rejects_when_a_vault_fetch_rejects h orderId passMarket
    proposal market wallet_pk ob :
  wallet_publicKey h = Some wallet_pk ->
  openbook h = Some ob ->
  getVaultMint h (Proposal.quoteVault (Proposal.account proposal)) = Rejected
  \/ (exists quoteVault,
        getVaultMint h (Proposal.quoteVault (Proposal.account proposal))
          = Resolved quoteVault)
     /\ getVaultMint h (Proposal.baseVault (Proposal.account proposal)) = Rejected ->
  settleFundsTransactions h orderId passMarket proposal market = Rejected.
Proof.
  intros Hw Hob Hfail. unfold settleFundsTransactions. rewrite Hw, Hob.
  destruct Hfail as [Hq | [[quoteVault Hq] Hb]].
  - rewrite Hq. reflexivity.
  - rewrite Hq. cbn [bind]. rewrite Hb. reflexivity.
Qed.

(** X15.  Besides the two user token accounts, the [settleFunds] accounts are
    read off the market and the program constants and do not depend on
    [passMarket] or on the proposal: [market], [marketAuthority],
    [marketBaseVault] and [marketQuoteVault] are the market's,
    [tokenProgram] is the token program id and [systemProgram] the system
    program. *)
Theorem settleFunds_market_accounts h orderId passMarket proposal market
    wallet_pk ob quoteVault baseVault :
  wallet_publicKey h = Some wallet_pk ->
  openbook h = Some ob ->
  getVaultMint h (Proposal.quoteVault (Proposal.account proposal))
    = Resolved quoteVault ->
  getVaultMint h (Proposal.baseVault (Proposal.account proposal))
    = Resolved baseVault ->
  exists accounts,
    settleFundsTransactions h orderId passMarket proposal market
    = Resolved (Some [ {| instructions := [Method OnOpenbook (settleFunds accounts)] |} ])
    /\ SettleFunds.market accounts = Market.publicKey market
    /\ SettleFunds.marketAuthority accounts
       = Market.marketAuthority (Market.account market)
    /\ SettleFunds.marketBaseVault accounts
       = Market.marketBaseVault (Market.account market)
    /\ SettleFunds.marketQuoteVault accounts
       = Market.marketQuoteVault (Market.account market)
    /\ SettleFunds.tokenProgram accounts = TOKEN_PROGRAM_ID
    /\ SettleFunds.systemProgram accounts
       = PublicKey_new "11111111111111111111111111111111".
Proof.
  intros Hw Hob Hq Hb.
  unfold settleFundsTransactions. rewrite Hw, Hob, Hq, Hb. cbn [bind].
  destruct passMarket; cbn; eexists; repeat split.
Qed.

End SettleFundsProperties.

Lemma settleFunds_rejects_when_a_vault_fetch_rejects_witness :
  settleFundsTransactions (ext := Example.externals)
    Scenario.hooks_no_vault 7%Z true (Example.proposal 4%float) Example.market
  = Rejected.
Proof.
  apply (settleFunds_rejects_when_a_vault_fetch_rejects (ext := Example.externals)
           Scenario.hooks_no_vault 7%Z true (Example.proposal 4%float) Example.market
           (wallet_pk := Example.wallet) eq_refl eq_refl).
  left. reflexivity.
Defined.

Lemma settleFunds_market_accounts_witness :
  exists accounts,
    settleFundsTransactions (ext := Example.externals)
      (Example.hooks Rejected Rejected) 7%Z false
      (Example.proposal 4%float) Example.market
    = Resolved (Some [ {| instructions := [Method OnOpenbook (settleFunds accounts)] |} ])
    /\ SettleFunds.marketAuthority accounts = Example.key "authority".
Proof.
  destruct (settleFunds_market_accounts (ext := Example.externals)
              (Example.hooks Rejected Rejected) 7%Z false
              (Example.proposal 4%float) Example.market
              (wallet_pk := Example.wallet) eq_refl eq_refl eq_refl eq_refl)
    as (accounts & Hrun & _ & Hauth & _).
  exists accounts. split; [exact Hrun | exact Hauth].
Defined.

(** ** ProposalList: keys and navigation *)

Lemma NoDup_map_Some {A : Type} (l : list A) : NoDup l -> NoDup (map Some l).
Proof.
  induction 1 as [|a l Hnotin _ IH]; cbn; constructor; [|exact IH].
  intros Hin. apply in_map_iff in Hin. destruct Hin as (b & [= ->] & Hb).
  now apply Hnotin.
Qed.

Section ProposalListProperties.
Context {ext : Externals}.

(** X16.  The keys of the rendered cards are, in order, the strings of the
    proposals' public keys; they are pairwise distinct, as React requires of
    siblings, whenever those strings are. *)
Theorem ProposalList_card_keys proposals cards :
  ProposalList (Some proposals) = Stack [] cards ->
  map elementKey cards
  = map (fun p => Some (PublicKey_toString (Proposal.publicKey p))) proposals
  /\ (NoDup (map (fun p => PublicKey_toString (Proposal.publicKey p)) proposals) ->
      NoDup (map elementKey cards)).
Proof.
  intros Hrender.
  assert (Hkeys :
    map elementKey cards
    = map (fun p => Some (PublicKey_toString (Proposal.publicKey p))) proposals).
  { destruct proposals as [|p ps]; [discriminate|].
    cbn in Hrender. injection Hrender as <-.
    cbn [map]. rewrite map_map. reflexivity. }
  split; [exact Hkeys|].
  intros Hdistinct. rewrite Hkeys.
  rewrite <- (map_map (fun p => PublicKey_toString (Proposal.publicKey p)) Some).
  now apply NoDup_map_Some.
Qed.

(** X17.  The card of a proposal shows the state badge of that proposal and
    four texts: the title with the proposal number plus one, 'Go to
    description', 'Proposed by' with the short key of the proposer, and
    'Trade'.  Its only button navigates to ['/proposal?id='] followed by the
    proposal number itself, one less than the number in the title. *)
Theorem ProposalList_card_content proposals cards i proposal :
  ProposalList (Some proposals) = Stack [] cards ->
  nth_error proposals i = Some proposal ->
  exists card,
    nth_error cards i = Some card
    /\ actions card
       = [RouterPush [Str "/proposal?id=";
                      Num (Proposal.number (Proposal.account proposal))]]
    /\ badges card = [proposal]
    /\ texts card
       = [ [Str "Proposal #";
            Num (Proposal.number (Proposal.account proposal) + 1)%float];
           [Str "Go to description"];
           [Str "Proposed by ";
            Str (shortKey (Proposal.proposer (Proposal.account proposal)))];
           [Str "Trade"] ].
Proof.
  intros Hrender Hi.
  destruct proposals as [|p ps]; [discriminate|].
  cbn in Hrender. injection Hrender as <-.
  exists (ProposalCard proposal). split; [|repeat split].
  change (ProposalCard p :: map ProposalCard ps) with (map ProposalCard (p :: ps)).
  rewrite nth_error_map, Hi. reflexivity.
Qed.

End ProposalListProperties.

Lemma ProposalList_card_keys_witness :
  NoDup (map elementKey
           [ProposalCard (ext := Example.externals) (Example.proposal 4%float);
            ProposalCard (ext := Example.externals) Scenario.proposal2]).
Proof.
  apply (ProposalList_card_keys (ext := Example.externals)
           [Example.proposal 4%float; Scenario.proposal2]).
  - reflexivity.
  - cbn. repeat constructor; cbn; intuition discriminate.
Defined.

Lemma ProposalList_card_content_witness :
  exists card,
    nth_error
      [ProposalCard (ext := Example.externals) (Example.proposal 4%float);
       ProposalCard (ext := Example.externals) Scenario.proposal2] 1 = Some card
    /\ actions card = [RouterPush [Str "/proposal?id="; Num 5%float]]
    /\ hd_error (texts card) = Some [Str "Proposal #"; Num 6%float].
Proof.
  destruct (ProposalList_card_content (ext := Example.externals)
              [Example.proposal 4%float; Scenario.proposal2]
              1 eq_refl eq_refl)
    as (card & Hnth & Hact & _ & Htexts).
  exists card. rewrite Hact, Htexts. repeat split. exact Hnth.
Defined.
